(** * langchain-nextjs-template: the chat route and the tool-step component

    A shallow embedding of

    - the route module (fetchGitHubTools, the two message converters and
      the POST handler), and
    - components/IntermediateStep.tsx (IntermediateStep and Code),

    over a model of the part of the JavaScript runtime these functions
    call: strings as sequences of UTF-16 code units, JSON values, abrupt
    completions (exceptions), JSON.parse / JSON.stringify,
    encodeURIComponent, TextEncoder, ReadableStream and the Response
    constructors.  The runtime model follows ECMA-262, the WHATWG
    Encoding, Streams and Fetch standards; binary64 arithmetic is kept
    abstract (a [NumberModel]). *)

From Stdlib Require Import List String Ascii NArith ZArith Bool Arith Lia.
Import ListNotations.

Set Implicit Arguments.
Set Warnings "-register-all".

(* ================================================================== *)
(** * JavaScript strings *)
(* ================================================================== *)

(** A JavaScript string is a finite sequence of 16-bit code units. *)
Definition CodeUnit := N.
Definition JsString := list CodeUnit.

(** An ASCII literal of the source, as a JavaScript string. *)
Definition lit (s : string) : JsString :=
  map N_of_ascii (list_ascii_of_string s).

(** [===] on two strings: same sequence of code units. *)
Fixpoint str_eqb (a b : JsString) : bool :=
  match a, b with
  | [], [] => true
  | x :: a', y :: b' => N.eqb x y && str_eqb a' b'
  | _, _ => false
  end.

(** String concatenation with a separator (Array.prototype.join). *)
Fixpoint join (sep : JsString) (parts : list JsString) : JsString :=
  match parts with
  | [] => []
  | [p] => p
  | p :: rest => p ++ sep ++ join sep rest
  end.

Definition is_lead (c : CodeUnit) : bool := (N.leb 0xD800 c && N.leb c 0xDBFF)%N.
Definition is_trail (c : CodeUnit) : bool := (N.leb 0xDC00 c && N.leb c 0xDFFF)%N.

(** The code points of a string (ECMA-262 CodePointAt, iterated): a lead
    surrogate followed by a trail surrogate is one supplementary code
    point; any other surrogate is unpaired. *)
Inductive CodePoint :=
| Scalar (cp : N)
| Unpaired (cu : CodeUnit).

(** A code point is at most U+10FFFF. *)
Definition code_point_bounded (p : CodePoint) : Prop :=
  match p with
  | Scalar cp => (cp < 0x110000)%N
  | Unpaired _ => True
  end.

Definition surrogate_pair (hi lo : CodeUnit) : N :=
  (0x10000 + (hi - 0xD800) * 0x400 + (lo - 0xDC00))%N.

Fixpoint code_points (s : JsString) : list CodePoint :=
  match s with
  | [] => []
  | c :: rest =>
      if is_lead c then
        match rest with
        | lo :: rest' =>
            if is_trail lo
            then Scalar (surrogate_pair c lo) :: code_points rest'
            else Unpaired c :: code_points rest
        | [] => [Unpaired c]
        end
      else if is_trail c then Unpaired c :: code_points rest
      else Scalar c :: code_points rest
  end.

(** UTF-8 encoding of one scalar value. *)
Definition Uint8Array := list N.

Definition utf8_encode_code_point (cp : N) : Uint8Array :=
  (if cp <? 0x80 then [cp]
   else if cp <? 0x800 then
     [N.lor 0xC0 (N.shiftr cp 6); N.lor 0x80 (N.land cp 0x3F)]
   else if cp <? 0x10000 then
     [N.lor 0xE0 (N.shiftr cp 12);
      N.lor 0x80 (N.land (N.shiftr cp 6) 0x3F);
      N.lor 0x80 (N.land cp 0x3F)]
   else
     [N.lor 0xF0 (N.shiftr cp 18);
      N.lor 0x80 (N.land (N.shiftr cp 12) 0x3F);
      N.lor 0x80 (N.land (N.shiftr cp 6) 0x3F);
      N.lor 0x80 (N.land cp 0x3F)])%N.

(** The UTF-8 encoding of a string, as TextEncoder produces it: the
    string is first made a scalar value string (each unpaired surrogate
    becomes U+FFFD), then every scalar value is encoded. *)
Definition utf8_encode (s : JsString) : Uint8Array :=
  flat_map
    (fun p => match p with
              | Scalar cp => utf8_encode_code_point cp
              | Unpaired _ => utf8_encode_code_point 0xFFFD%N
              end)
    (code_points s).

Definition hex_upper (d : N) : CodeUnit := (if d <? 10 then 48 + d else 55 + d)%N.
Definition hex_lower (d : N) : CodeUnit := (if d <? 10 then 48 + d else 87 + d)%N.

Definition in_range (lo hi c : N) : bool := (N.leb lo c && N.leb c hi)%N.

Definition is_digit (c : CodeUnit) : bool := in_range 48 57 c.

(** The characters encodeURIComponent leaves alone: letters, digits and
    the marks [- _ . ! ~ * ' ( )]. *)
Definition uri_unreserved (c : N) : bool :=
  in_range 65 90 c || in_range 97 122 c || is_digit c
  || existsb (N.eqb c) (lit "-_.!~*'()").

Definition percent_encode (b : N) : JsString :=
  [37%N; hex_upper (N.shiftr b 4); hex_upper (N.land b 15)].

(** The characters a query value produced by encodeURIComponent is made
    of: unreserved characters and the percent sign of an escape. *)
Definition uri_safe (c : N) : bool := uri_unreserved c || N.eqb c 37.

(** The string has a surrogate that is not part of a pair. *)
Definition has_unpaired (s : JsString) : bool :=
  existsb (fun p => match p with Unpaired _ => true | Scalar _ => false end)
    (code_points s).

(* ================================================================== *)
(** * Numbers *)
(* ================================================================== *)

(** Number values are binary64 floats.  Their arithmetic is not
    modelled: the development is parametric in a type of numbers and in
    the four runtime operations the code reaches. *)
Record NumberModel : Type := {
  Number : Type;
  (** StringToNumber on a literal of the JSON grammar *)
  StringToNumber : JsString -> Number;
  (** Number::toString(x, 10) *)
  NumberToString : Number -> JsString;
  (** x is neither NaN nor an infinity *)
  Number_isFinite : Number -> bool;
  (** x is +0, -0 or NaN: the numbers ToBoolean sends to false *)
  Number_isZeroOrNaN : Number -> bool
}.

(** A model that runs: a number is kept as its literal.  It is used to
    evaluate the embedding on concrete inputs. *)
Definition literal_is_zero (s : JsString) : bool :=
  forallb (fun c => negb (in_range 49 57 c))
    (* the digits before an exponent part *)
    ((fix mantissa (l : JsString) : JsString :=
        match l with
        | [] => []
        | c :: l' => if N.eqb c 101 || N.eqb c 69 then [] else c :: mantissa l'
        end) s).

Definition LiteralNumbers : NumberModel := {|
  Number := JsString;
  StringToNumber := fun s => s;
  NumberToString := fun s => s;
  Number_isFinite := fun _ => true;
  Number_isZeroOrNaN := literal_is_zero
|}.

(* ================================================================== *)
(** * Exceptions *)
(* ================================================================== *)

(** A thrown Error object, as far as the handler looks at it: [message]
    and [status] are the two properties read by the catch block of POST;
    [status] is [None] for an error object without such a property. *)
Record JsError : Type := {
  err_name : JsString;
  message : JsString;
  status : option Z
}.

(** [new Error(msg)], [new TypeError(msg)], ...: the standard
    constructors set no [status]. *)
Definition NativeError (name msg : string) : JsError :=
  {| err_name := lit name; message := lit msg; status := None |}.

Definition Error (msg : string) : JsError := NativeError "Error" msg.
Definition TypeError (msg : string) : JsError := NativeError "TypeError" msg.
Definition SyntaxError (msg : string) : JsError := NativeError "SyntaxError" msg.
Definition URIError (msg : string) : JsError := NativeError "URIError" msg.
Definition RangeError (msg : string) : JsError := NativeError "RangeError" msg.

(** The result of evaluating an expression or a call: a value, or an
    exception on its way to the nearest enclosing [catch]. *)
Inductive Completion (A : Type) : Type :=
| Return (a : A)
| Throw (e : JsError).
Arguments Return {A} a.
Arguments Throw {A} e.

Definition bind {A B : Type} (c : Completion A) (k : A -> Completion B)
  : Completion B :=
  match c with
  | Return a => k a
  | Throw e => Throw e
  end.

Declare Scope js_scope.
Delimit Scope js_scope with js.
Notation "x <- c ;; k" := (bind c (fun x => k))
  (at level 61, c at next level, right associativity) : js_scope.
Notation "c ;;; k" := (bind c (fun _ => k))
  (at level 61, right associativity) : js_scope.

(** [try { body } catch (e) { handler }] *)
Definition try_catch {A : Type} (body : Completion A)
  (handler : JsError -> Completion A) : Completion A :=
  match body with
  | Return a => Return a
  | Throw e => handler e
  end.

(** Every exception the computation can end with is an error object
    without a [status] property. *)
Definition throws_native {A : Type} (c : Completion A) : Prop :=
  forall e, c = Throw e -> status e = None.

(** The property names the two source files read with [.name]. None of
    them is defined on a built-in prototype, so a read finds an own
    property or nothing. *)
Inductive PropertyName :=
| p_user_input | p_show_intermediate_steps | p_response | p_output
| p_tool_name | p_tool_input | p_tool_output.

Definition property_string (p : PropertyName) : string :=
  match p with
  | p_user_input => "user_input"
  | p_show_intermediate_steps => "show_intermediate_steps"
  | p_response => "response"
  | p_output => "output"
  | p_tool_name => "tool_name"
  | p_tool_input => "tool_input"
  | p_tool_output => "tool_output"
  end.

Definition property_key (p : PropertyName) : JsString := lit (property_string p).

Section Runtime.

Variable num : NumberModel.

Local Open Scope js_scope.

(* ================================================================== *)
(** * Values *)
(* ================================================================== *)

(** The values the code handles: what JSON.parse and [json()] produce,
    and [undefined] for a property that is not there.  An object is its
    list of own properties, in the order [Object.keys] lists them. *)
Inductive JsValue : Type :=
| JUndefined
| JNull
| JBool (b : bool)
| JNum (n : Number num)
| JStr (s : JsString)
| JArr (elems : list JsValue)
| JObj (props : list (JsString * JsValue)).

Definition Props := list (JsString * JsValue).

Fixpoint own_property (props : Props) (k : JsString) : option JsValue :=
  match props with
  | [] => None
  | (k', v) :: rest => if str_eqb k' k then Some v else own_property rest k
  end.

Definition has_own (props : Props) (k : JsString) : bool :=
  match own_property props k with Some _ => true | None => false end.

Definition type_name (v : JsValue) : string :=
  match v with JNull => "null" | _ => "undefined" end.

(** [v.p]: reading a property of [null] or [undefined] throws; a
    primitive or an array has none of the names of [PropertyName]. *)
Definition Get (v : JsValue) (p : PropertyName) : Completion JsValue :=
  match v with
  | JUndefined | JNull =>
      Throw (TypeError ("Cannot read properties of " ++ type_name v
                        ++ " (reading '" ++ property_string p ++ "')"))
  | JObj props =>
      Return (match own_property props (property_key p) with
              | Some x => x
              | None => JUndefined
              end)
  | _ => Return JUndefined
  end.

(** [typeof v === 'string'] *)
Definition is_string (v : JsValue) : bool :=
  match v with JStr _ => true | _ => false end.

(** ToBoolean, the test of [!v] and of [if (v)]. *)
Definition ToBoolean (v : JsValue) : bool :=
  match v with
  | JUndefined | JNull => false
  | JBool b => b
  | JNum n => negb (Number_isZeroOrNaN num n)
  | JStr s => match s with [] => false | _ => true end
  | JArr _ | JObj _ => true
  end.

(** ToString.  An array goes through Array.prototype.join; a plain
    object answers ["[object Object]"] unless it has an own property
    named [toString], which (never being callable in a JSON value) makes
    OrdinaryToPrimitive fail. *)
Fixpoint ToString (v : JsValue) : Completion JsString :=
  match v with
  | JUndefined => Return (lit "undefined")
  | JNull => Return (lit "null")
  | JBool b => Return (lit (if b then "true" else "false"))
  | JNum n => Return (NumberToString num n)
  | JStr s => Return s
  | JArr elems =>
      parts <- (fix each (es : list JsValue) : Completion (list JsString) :=
                  match es with
                  | [] => Return []
                  | e :: es' =>
                      s <- match e with
                           | JUndefined | JNull => Return []
                           | _ => ToString e
                           end ;;
                      rest <- each es' ;;
                      Return (s :: rest)
                  end) elems ;;
      Return (join (lit ",") parts)
  | JObj props =>
      if has_own props (lit "toString")
      then Throw (TypeError "Cannot convert object to primitive value")
      else Return (lit "[object Object]")
  end.

(** encodeURIComponent: every code point outside the unreserved set is
    replaced by the escapes of its UTF-8 bytes; an unpaired surrogate is
    a URIError. *)
Fixpoint uri_encode (ps : list CodePoint) : Completion JsString :=
  match ps with
  | [] => Return []
  | Unpaired _ :: _ => Throw (URIError "URI malformed")
  | Scalar cp :: rest =>
      tail <- uri_encode rest ;;
      Return ((if uri_unreserved cp then [cp]
               else flat_map percent_encode (utf8_encode_code_point cp))
              ++ tail)
  end.

Definition encodeURIComponent (v : JsValue) : Completion JsString :=
  s <- ToString v ;;
  uri_encode (code_points s).

(** [new TextEncoder().encode(v)]: the argument is an optional string
    defaulting to the empty string, so [undefined] encodes to no bytes
    and any other value is converted with ToString first. *)
Definition TextEncoder_encode (v : JsValue) : Completion Uint8Array :=
  match v with
  | JUndefined => Return []
  | _ => s <- ToString v ;; Return (utf8_encode s)
  end.

(* ================================================================== *)
(** * JSON.stringify *)
(* ================================================================== *)

Definition hex4_lower (c : N) : JsString :=
  [hex_lower (N.land (N.shiftr c 12) 15); hex_lower (N.land (N.shiftr c 8) 15);
   hex_lower (N.land (N.shiftr c 4) 15); hex_lower (N.land c 15)].

(** UnicodeEscape: backslash, [u], four lowercase hex digits. *)
Definition unicode_escape (c : CodeUnit) : JsString :=
  92%N :: 117%N :: hex4_lower c.

Definition quote_code_unit (c : CodeUnit) : JsString :=
  (if c =? 8 then [92; 98]          (* \b *)
   else if c =? 9 then [92; 116]    (* \t *)
   else if c =? 10 then [92; 110]   (* \n *)
   else if c =? 12 then [92; 102]   (* \f *)
   else if c =? 13 then [92; 114]   (* \r *)
   else if c =? 34 then [92; 34]    (* the double quote *)
   else if c =? 92 then [92; 92]    (* the backslash *)
   else if c <? 32 then unicode_escape c
   else [c])%N.

Fixpoint quote_code_units (s : JsString) : JsString :=
  match s with
  | [] => []
  | c :: rest =>
      if is_lead c then
        match rest with
        | lo :: rest' =>
            if is_trail lo then c :: lo :: quote_code_units rest'
            else unicode_escape c ++ quote_code_units rest
        | [] => unicode_escape c
        end
      else if is_trail c then unicode_escape c ++ quote_code_units rest
      else quote_code_unit c ++ quote_code_units rest
  end.

(** QuoteJSONString *)
Definition QuoteJSONString (s : JsString) : JsString :=
  34%N :: quote_code_units s ++ [34%N].

Definition is_empty (s : JsString) : bool :=
  match s with [] => true | _ => false end.

(** The brackets and separators SerializeJSONArray and
    SerializeJSONObject put around the serialized members. *)
Definition wrap_members (gap stepback : JsString) (open_ close_ : string)
  (partial : list JsString) : JsString :=
  match partial with
  | [] => lit open_ ++ lit close_
  | _ =>
      if is_empty gap then lit open_ ++ join (lit ",") partial ++ lit close_
      else
        let indent := stepback ++ gap in
        lit open_ ++ [10%N] ++ indent
        ++ join (lit "," ++ [10%N] ++ indent) partial
        ++ [10%N] ++ stepback ++ lit close_
  end.

(** SerializeJSONProperty with the given gap at the given indentation;
    [None] stands for the result [undefined]. *)
Fixpoint SerializeJSONProperty (gap indent : JsString) (v : JsValue)
  : option JsString :=
  match v with
  | JUndefined => None
  | JNull => Some (lit "null")
  | JBool b => Some (lit (if b then "true" else "false"))
  | JNum n =>
      Some (if Number_isFinite num n then NumberToString num n else lit "null")
  | JStr s => Some (QuoteJSONString s)
  | JArr elems =>
      Some (wrap_members gap indent "[" "]"
              (map (fun e =>
                      match SerializeJSONProperty gap (indent ++ gap) e with
                      | Some str => str
                      | None => lit "null"
                      end) elems))
  | JObj props =>
      Some (wrap_members gap indent "{" "}"
              ((fix members (ps : Props) : list JsString :=
                  match ps with
                  | [] => []
                  | (k, x) :: ps' =>
                      match SerializeJSONProperty gap (indent ++ gap) x with
                      | Some str =>
                          (QuoteJSONString k ++ lit ":"
                           ++ (if is_empty gap then [] else lit " ") ++ str)
                          :: members ps'
                      | None => members ps'
                      end
                  end) props))
  end.

(** [JSON.stringify(v, null, space)] for a number of spaces between 0
    and 10; the result is a string or [undefined]. *)
Definition JSON_stringify (v : JsValue) (space : nat) : JsValue :=
  match SerializeJSONProperty (repeat 32%N space) [] v with
  | Some str => JStr str
  | None => JUndefined
  end.

(* ================================================================== *)
(** * JSON.parse *)
(* ================================================================== *)

(** ** Tokens of the JSON grammar *)

Inductive Token :=
| TLBrace | TRBrace | TLBracket | TRBracket | TColon | TComma
| TString (s : JsString)
| TNumber (literal : JsString)
| TTrue | TFalse | TNull.

(** Where the scanner is inside a number literal: an optional minus,
    then 0 or a non-zero digit followed by digits, then an optional
    fraction (a dot and at least one digit), then an optional exponent
    (e or E, an optional sign, at least one digit). *)
Inductive NumState :=
| NMinus | NZero | NInt | NDot | NFrac | NExp | NExpSign | NExpDigits.

Definition num_accepting (st : NumState) : bool :=
  match st with
  | NZero | NInt | NFrac | NExpDigits => true
  | _ => false
  end.

Definition num_step (st : NumState) (c : CodeUnit) : option NumState :=
  let dot := N.eqb c 46 in
  let e := N.eqb c 101 || N.eqb c 69 in
  let sign := N.eqb c 43 || N.eqb c 45 in
  match st with
  | NMinus => if N.eqb c 48 then Some NZero
              else if in_range 49 57 c then Some NInt else None
  | NZero => if dot then Some NDot else if e then Some NExp else None
  | NInt => if is_digit c then Some NInt
            else if dot then Some NDot else if e then Some NExp else None
  | NDot => if is_digit c then Some NFrac else None
  | NFrac => if is_digit c then Some NFrac else if e then Some NExp else None
  | NExp => if is_digit c then Some NExpDigits
            else if sign then Some NExpSign else None
  | NExpSign => if is_digit c then Some NExpDigits else None
  | NExpDigits => if is_digit c then Some NExpDigits else None
  end.

Definition hex_value (c : CodeUnit) : option N :=
  (if is_digit c then Some (c - 48)
   else if in_range 97 102 c then Some (c - 87)
   else if in_range 65 70 c then Some (c - 55)
   else None)%N.

(** The scanner reads one code unit at a time.  Accumulated text is
    kept reversed. *)
Inductive LexState :=
| LDefault
| LString (acc : JsString)
| LEscape (acc : JsString)
| LUnicode (acc : JsString) (seen : nat) (value : N)
| LNumber (st : NumState) (acc : JsString)
| LWord (rest : JsString) (tok : Token).

Definition lex_default (c : CodeUnit) (toks : list Token)
  : option (LexState * list Token) :=
  (if (c =? 9) || (c =? 10) || (c =? 13) || (c =? 32) then Some (LDefault, toks)
   else if c =? 123 then Some (LDefault, TLBrace :: toks)
   else if c =? 125 then Some (LDefault, TRBrace :: toks)
   else if c =? 91 then Some (LDefault, TLBracket :: toks)
   else if c =? 93 then Some (LDefault, TRBracket :: toks)
   else if c =? 58 then Some (LDefault, TColon :: toks)
   else if c =? 44 then Some (LDefault, TComma :: toks)
   else if c =? 34 then Some (LString [], toks)
   else if c =? 45 then Some (LNumber NMinus [c], toks)
   else if c =? 48 then Some (LNumber NZero [c], toks)
   else if in_range 49 57 c then Some (LNumber NInt [c], toks)
   else if c =? 116 then Some (LWord (lit "rue") TTrue, toks)
   else if c =? 102 then Some (LWord (lit "alse") TFalse, toks)
   else if c =? 110 then Some (LWord (lit "ull") TNull, toks)
   else None)%N.

Definition lex_step (st : LexState) (toks : list Token) (c : CodeUnit)
  : option (LexState * list Token) :=
  match st with
  | LDefault => lex_default c toks
  | LString acc =>
      (if c =? 34 then Some (LDefault, TString (rev acc) :: toks)
       else if c =? 92 then Some (LEscape acc, toks)
       else if c <? 32 then None
       else Some (LString (c :: acc), toks))%N
  | LEscape acc =>
      (if (c =? 34) || (c =? 92) || (c =? 47) then Some (LString (c :: acc), toks)
       else if c =? 98 then Some (LString (8 :: acc), toks)
       else if c =? 102 then Some (LString (12 :: acc), toks)
       else if c =? 110 then Some (LString (10 :: acc), toks)
       else if c =? 114 then Some (LString (13 :: acc), toks)
       else if c =? 116 then Some (LString (9 :: acc), toks)
       else if c =? 117 then Some (LUnicode acc 0 0, toks)
       else None)%N
  | LUnicode acc seen value =>
      match hex_value c with
      | None => None
      | Some d =>
          let value' := (value * 16 + d)%N in
          if Nat.eqb seen 3 then Some (LString (value' :: acc), toks)
          else Some (LUnicode acc (S seen) value', toks)
      end
  | LNumber ns acc =>
      match num_step ns c with
      | Some ns' => Some (LNumber ns' (c :: acc), toks)
      | None =>
          if num_accepting ns
          then lex_default c (TNumber (rev acc) :: toks)
          else None
      end
  | LWord rest tok =>
      match rest with
      | [] => None
      | x :: rest' =>
          if N.eqb c x then
            match rest' with
            | [] => Some (LDefault, tok :: toks)
            | _ => Some (LWord rest' tok, toks)
            end
          else None
      end
  end.

Fixpoint lex_from (st : LexState) (toks : list Token) (s : JsString)
  : option (list Token) :=
  match s with
  | [] =>
      match st with
      | LDefault => Some (rev toks)
      | LNumber ns acc =>
          if num_accepting ns then Some (rev (TNumber (rev acc) :: toks))
          else None
      | _ => None
      end
  | c :: rest =>
      match lex_step st toks c with
      | Some (st', toks') => lex_from st' toks' rest
      | None => None
      end
  end.

Definition tokenize (s : JsString) : option (list Token) :=
  lex_from LDefault [] s.

(** ** Building the object of a JSON text

    Each member is added with CreateDataProperty: a repeated key keeps
    its place and takes the later value; a new key that is an array
    index goes among the array indices in ascending order, before every
    other key; any other new key goes last. *)

Definition decimal_value (s : JsString) : N :=
  fold_left (fun acc c => (acc * 10 + (c - 48))%N) s 0%N.

Definition array_index (k : JsString) : option N :=
  match k with
  | [] => None
  | c :: rest =>
      if (N.eqb c 48 && is_empty rest) || (in_range 49 57 c && forallb is_digit rest)
      then (if decimal_value k <? 4294967295 then Some (decimal_value k) else None)%N
      else None
  end.

Fixpoint replace_property (props : Props) (k : JsString) (v : JsValue) : Props :=
  match props with
  | [] => []
  | (k', v') :: rest =>
      if str_eqb k' k then (k', v) :: rest
      else (k', v') :: replace_property rest k v
  end.

Fixpoint insert_index (props : Props) (i : N) (k : JsString) (v : JsValue) : Props :=
  match props with
  | [] => [(k, v)]
  | (k', v') :: rest =>
      match array_index k' with
      | Some j =>
          if (i <? j)%N then (k, v) :: props
          else (k', v') :: insert_index rest i k v
      | None => (k, v) :: props
      end
  end.

Definition CreateDataProperty (props : Props) (k : JsString) (v : JsValue) : Props :=
  if has_own props k then replace_property props k v
  else
    match array_index k with
    | Some i => insert_index props i k v
    | None => props ++ [(k, v)]
    end.

(** ** The parser: a pushdown automaton over the tokens *)

(** An enclosing array or object that waits for the value being read. *)
Inductive Frame :=
| FArr (rev_elems : list JsValue)
| FObj (props : Props) (key : JsString).

Inductive ParseState :=
| SValue (stack : list Frame)                        (* a value must follow *)
| SArrStart (stack : list Frame)                     (* after an opening bracket *)
| SObjStart (stack : list Frame)                     (* after an opening brace *)
| SKey (props : Props) (stack : list Frame)          (* after a comma in an object *)
| SColon (props : Props) (key : JsString) (stack : list Frame)
| SArrNext (rev_elems : list JsValue) (stack : list Frame)
| SObjNext (props : Props) (stack : list Frame)
| SDone (v : JsValue).

(** A complete value goes to the innermost enclosing container. *)
Definition deliver (v : JsValue) (stack : list Frame) : ParseState :=
  match stack with
  | [] => SDone v
  | FArr es :: stack' => SArrNext (v :: es) stack'
  | FObj props k :: stack' => SObjNext (CreateDataProperty props k v) stack'
  end.

Definition parse_value_start (t : Token) (stack : list Frame) : option ParseState :=
  match t with
  | TNull => Some (deliver JNull stack)
  | TTrue => Some (deliver (JBool true) stack)
  | TFalse => Some (deliver (JBool false) stack)
  | TNumber l => Some (deliver (JNum (StringToNumber num l)) stack)
  | TString s => Some (deliver (JStr s) stack)
  | TLBracket => Some (SArrStart stack)
  | TLBrace => Some (SObjStart stack)
  | _ => None
  end.

Definition parse_step (st : ParseState) (t : Token) : option ParseState :=
  match st with
  | SValue stack => parse_value_start t stack
  | SArrStart stack =>
      match t with
      | TRBracket => Some (deliver (JArr []) stack)
      | _ => parse_value_start t (FArr [] :: stack)
      end
  | SObjStart stack =>
      match t with
      | TRBrace => Some (deliver (JObj []) stack)
      | TString k => Some (SColon [] k stack)
      | _ => None
      end
  | SKey props stack =>
      match t with
      | TString k => Some (SColon props k stack)
      | _ => None
      end
  | SColon props k stack =>
      match t with
      | TColon => Some (SValue (FObj props k :: stack))
      | _ => None
      end
  | SArrNext es stack =>
      match t with
      | TComma => Some (SValue (FArr es :: stack))
      | TRBracket => Some (deliver (JArr (rev es)) stack)
      | _ => None
      end
  | SObjNext props stack =>
      match t with
      | TComma => Some (SKey props stack)
      | TRBrace => Some (deliver (JObj props) stack)
      | _ => None
      end
  | SDone _ => None
  end.

Fixpoint parse_from (st : ParseState) (toks : list Token) : option JsValue :=
  match toks with
  | [] => match st with SDone v => Some v | _ => None end
  | t :: rest =>
      match parse_step st t with
      | Some st' => parse_from st' rest
      | None => None
      end
  end.

(** [JSON.parse(text)] without a reviver: the value of the text, or a
    SyntaxError when the text is not in the JSON grammar. *)
Definition JSON_parse (text : JsString) : Completion JsValue :=
  match tokenize text with
  | Some toks =>
      match parse_from (SValue []) toks with
      | Some v => Return v
      | None => Throw (SyntaxError "Unexpected token in JSON")
      end
  | None => Throw (SyntaxError "Unexpected token in JSON")
  end.

(** A value of the JSON data model: [undefined] occurs nowhere in
    it. *)
Fixpoint is_json (v : JsValue) : bool :=
  match v with
  | JUndefined => false
  | JArr elems => forallb is_json elems
  | JObj props => forallb (fun kv => is_json (snd kv)) props
  | _ => true
  end.

Definition props_json (props : Props) : bool :=
  forallb (fun kv => is_json (snd kv)) props.

Definition frame_json (f : Frame) : bool :=
  match f with
  | FArr es => forallb is_json es
  | FObj props _ => props_json props
  end.

(** The invariant of the parser: every value it holds is a JSON
    value. *)
Definition state_json (st : ParseState) : bool :=
  match st with
  | SValue stack | SArrStart stack | SObjStart stack => forallb frame_json stack
  | SKey props stack | SColon props _ stack | SObjNext props stack =>
      props_json props && forallb frame_json stack
  | SArrNext es stack => forallb is_json es && forallb frame_json stack
  | SDone v => is_json v
  end.

(* ================================================================== *)
(** * Promises, fetch, streams and responses *)
(* ================================================================== *)

(** A promise that has settled.  [Rejected name msg] is a rejection made
    by the runtime itself (a failed [json()], a failed [fetch]): one of
    its own error objects, a name and a message, without a [status]
    property.  [RejectedWith e] is a rejection with any other error
    object (a request or a [fetch] that is mocked or patched, the error
    of a library), which may carry a [status].  A promise that never
    settles (an unresponsive toolkit) is not represented: every
    statement below is about requests whose promises settle, and none
    says that the handler completes. *)
Inductive Settled (A : Type) : Type :=
| Fulfilled (a : A)
| Rejected (name msg : JsString)
| RejectedWith (e : JsError).
Arguments Fulfilled {A} a.
Arguments Rejected {A} name msg.
Arguments RejectedWith {A} e.

(** [await p] *)
Definition await {A : Type} (p : Settled A) : Completion A :=
  match p with
  | Fulfilled a => Return a
  | Rejected name msg =>
      Throw {| err_name := name; message := msg; status := None |}
  | RejectedWith e => Throw e
  end.

(** The incoming request: [req.json()] reads and parses the body. *)
Record NextRequest : Type := {
  json : Settled JsValue
}.

(** The response [fetch] resolves to: its HTTP status and what
    [response.json()] settles to. *)
Record FetchResponse : Type := {
  fetch_status : Z;
  response_json : Settled JsValue
}.

(** [response.ok]: the status is in the range 200 to 299. *)
Definition ok (r : FetchResponse) : bool :=
  (200 <=? fetch_status r)%Z && (fetch_status r <=? 299)%Z.

(** The network, seen from the handler: what a GET of a URL settles to. *)
Definition Fetch := JsString -> Settled FetchResponse.

(** A ReadableStream with its default controller: the queued chunks and
    whether [close] has been called. *)
Record ReadableStream : Type := {
  queue : list Uint8Array;
  closeRequested : bool
}.

Definition controller_enqueue (chunk : Uint8Array) (s : ReadableStream)
  : Completion ReadableStream :=
  if closeRequested s
  then Throw (TypeError "Invalid state: Controller is already closed")
  else Return {| queue := queue s ++ [chunk]; closeRequested := false |}.

Definition controller_close (s : ReadableStream) : Completion ReadableStream :=
  if closeRequested s
  then Throw (TypeError "Invalid state: Controller is already closed")
  else Return {| queue := queue s; closeRequested := true |}.

(** [new ReadableStream({ start })]: [start] runs at once on the fresh
    controller; an exception it throws is thrown by the constructor. *)
Definition new_ReadableStream
  (start : ReadableStream -> Completion ReadableStream)
  : Completion ReadableStream :=
  start {| queue := []; closeRequested := false |}.

(** What one [read()] of the stream's reader gives. *)
Inductive ReadResult :=
| Chunk (bytes : Uint8Array)
| Done
| Pending.

Definition read (s : ReadableStream) : ReadResult * ReadableStream :=
  match queue s with
  | c :: rest => (Chunk c, {| queue := rest; closeRequested := closeRequested s |})
  | [] => (if closeRequested s then Done else Pending, s)
  end.

Inductive ResponseBody :=
| StreamBody (stream : ReadableStream)
| JsonBody (data : JsValue).

Record HttpResponse : Type := {
  response_status : Z;
  content_type : string;
  body : ResponseBody
}.

(** [new StreamingTextResponse(stream)] of the ai package: status 200,
    plain text. *)
Definition StreamingTextResponse (stream : ReadableStream) : HttpResponse :=
  {| response_status := 200;
     content_type := "text/plain; charset=utf-8";
     body := StreamBody stream |}.

(** The statuses that forbid a body. *)
Definition null_body_status (st : Z) : bool :=
  ((st =? 204) || (st =? 205) || (st =? 304))%Z.


(** [NextResponse.json(data, { status })].  The data is serialized
    first (data that JSON.stringify turns into [undefined] is a
    TypeError); the Response constructor then refuses a status outside
    200..599 with a RangeError and a null body status with a TypeError.
    The body sent is [JSON.stringify(data)]. *)
Definition NextResponse_json (data : JsValue) (st : Z) : Completion HttpResponse :=
  match JSON_stringify data 0 with
  | JUndefined => Throw (TypeError "Value is not JSON serializable")
  | _ =>
      if ((200 <=? st) && (st <=? 599))%Z
      then
        if null_body_status st
        then Throw (TypeError "Response constructor: Invalid response status code")
        else Return {| response_status := st;
                       content_type := "application/json";
                       body := JsonBody data |}
      else Throw (RangeError "init['status'] must be in the range of 200 to 599, inclusive.")
  end.

(* ================================================================== *)
(** * The route module *)
(* ================================================================== *)

(** ** fetchGitHubTools *)

Definition toolkit_url : string :=
  "http://127.0.0.1:8000/github-toolkit?user_input=".

Definition fetchGitHubTools (fetch : Fetch) (userInput : JsValue)
  : Completion JsValue :=
  query <- encodeURIComponent userInput ;;
  response <- await (fetch (lit toolkit_url ++ query)) ;;
  if negb (ok response)
  then Throw (Error "Failed to fetch GitHub Toolkit")
  else await (response_json response).

(** ** The message converters *)

(** The chat message of the ai package, as far as the code reads it. *)
Record VercelChatMessage : Type := {
  role : JsString;
  content : JsString
}.

(** A message object of @langchain/core, as far as the code looks at
    it: the tag its [getType()] method returns, its [content] (a string
    or an array of content parts) and its [tool_calls] property
    ([undefined] on a class that has none). *)
Record BaseMessage : Type := {
  getType : JsString;
  message_content : JsValue;
  message_tool_calls : JsValue;
  message_role : JsValue
}.

(** [new HumanMessage(content)] *)
Definition HumanMessage (content : JsValue) : BaseMessage :=
  {| getType := lit "human";
     message_content := content;
     message_tool_calls := JUndefined;
     message_role := JUndefined |}.

(** [new AIMessage(content)]: built from a string, the message has an
    empty list of tool calls. *)
Definition AIMessage (content : JsValue) : BaseMessage :=
  {| getType := lit "ai";
     message_content := content;
     message_tool_calls := JArr [];
     message_role := JUndefined |}.

(** [new ChatMessage(content, role)]: the role is kept by the message,
    its type tag is [generic]. *)
Definition ChatMessage (content : JsValue) (role : JsString) : BaseMessage :=
  {| getType := lit "generic";
     message_content := content;
     message_tool_calls := JUndefined;
     message_role := JStr role |}.

Definition convertVercelMessageToLangChainMessage (message : VercelChatMessage)
  : BaseMessage :=
  if str_eqb (role message) (lit "user") then
    HumanMessage (JStr (content message))
  else if str_eqb (role message) (lit "assistant") then
    AIMessage (JStr (content message))
  else
    ChatMessage (JStr (content message)) (role message).

(** The result is the object literal of the source, property by
    property. *)
Definition convertLangChainMessageToVercelMessage (message : BaseMessage)
  : JsValue :=
  if str_eqb (getType message) (lit "human") then
    JObj [(lit "content", message_content message);
          (lit "role", JStr (lit "user"))]
  else if str_eqb (getType message) (lit "ai") then
    JObj [(lit "content", message_content message);
          (lit "role", JStr (lit "assistant"));
          (lit "tool_calls", message_tool_calls message)]
  else
    JObj [(lit "content", message_content message);
          (lit "role", JStr (getType message))].

(** ** POST *)

(** The body of the [try] block. *)
Definition POST_try (fetch : Fetch) (req : NextRequest)
  : Completion HttpResponse :=
  body <- await (json req) ;;
  userInput <- Get body p_user_input ;;
  returnIntermediateSteps <- Get body p_show_intermediate_steps ;;
  toolsResponse <- fetchGitHubTools fetch userInput ;;
  responseContent <- Get toolsResponse p_response ;;
  if negb (ToBoolean returnIntermediateSteps) then
    transformStream <-
      new_ReadableStream
        (fun controller =>
           chunk <- TextEncoder_encode responseContent ;;
           controller <- controller_enqueue chunk controller ;;
           controller_close controller) ;;
    Return (StreamingTextResponse transformStream)
  else
    out <- Get responseContent p_output ;;
    NextResponse_json
      (JObj [(lit "messages",
              JArr [JObj [(lit "content", out);
                          (lit "role", JStr (lit "assistant"))]])])
      200.

(** The [catch (e)] block: [e.status ?? 500]. *)
Definition POST_catch (e : JsError) : Completion HttpResponse :=
  NextResponse_json
    (JObj [(lit "error", JStr (message e))])
    (match status e with Some st => st | None => 500%Z end).

Definition POST (fetch : Fetch) (req : NextRequest) : Completion HttpResponse :=
  try_catch (POST_try fetch req) POST_catch.

(* ================================================================== *)
(** * components/IntermediateStep.tsx *)
(* ================================================================== *)

(** What a component returns: a tree of elements.  Literal text of the
    JSX is kept apart from the values of embedded expressions. *)
Inductive ReactNode : Type :=
| Text (s : string)
| Expr (v : JsValue)
| Element (tag : string) (className : option string) (children : list ReactNode)
| CodeElement (className : string) (children : JsValue).

(** The Code component.  [cn] joins class names; it lives in utils/cn,
    outside the two files under study. *)
Definition Code (cn : string -> string -> string)
  (className : string) (children : JsValue) : ReactNode :=
  Element "pre"
    (Some (cn "rounded-md bg-secondary p-4 overflow-x-auto"%string className))
    [Element "code" None [Expr children]].

(** One call of [console.error(label, error)]. *)
Definition ConsoleEntry : Type := string * JsError.

(** The JSX returned by the [try] block, given the three values it
    embeds. *)
Definition tool_step_view (tool_name inputText outputText : JsValue) : ReactNode :=
  let div := Element "div" in
  let label := Some "text-sm font-semibold text-muted-foreground"%string in
  div (Some "mx-auto mb-8 max-w-[768px]"%string)
    [div (Some "rounded-lg border bg-muted p-4"%string)
       [div (Some "mb-2 flex items-center"%string)
          [Element "span" (Some "mr-2 text-sm font-semibold"%string)
             [Text "🛠️ Tool Execution:"];
           Element "code" (Some "rounded bg-primary px-1 py-0.5 text-sm"%string)
             [Expr tool_name]];
        div (Some "mb-4"%string)
          [div label [Text "Input:"];
           CodeElement "mt-1 text-sm" inputText];
        div None
          [div label [Text "Output:"];
           CodeElement "mt-1 text-sm" outputText]]].

Definition IntermediateStep_try (message : VercelChatMessage) : Completion ReactNode :=
  toolData <- JSON_parse (content message) ;;
  tool_name <- Get toolData p_tool_name ;;
  tool_input <- Get toolData p_tool_input ;;
  tool_output <- Get toolData p_tool_output ;;
  outputText <- (if is_string tool_output
                 then Get toolData p_tool_output
                 else (o <- Get toolData p_tool_output ;;
                       Return (JSON_stringify o 2))) ;;
  Return (tool_step_view tool_name (JSON_stringify tool_input 2) outputText).

(** The component: the element it returns ([None] for [null]) and what
    it wrote to the console. *)
Definition IntermediateStep (message : VercelChatMessage)
  : option ReactNode * list ConsoleEntry :=
  match IntermediateStep_try message with
  | Return view => (Some view, [])
  | Throw error => (None, [("Error parsing tool data:"%string, error)])
  end.

(* ================================================================== *)
(** * Describing the environment *)
(* ================================================================== *)

(** The toolkit call made for [userInput] succeeds with the JSON body
    [answer]: the query string can be built, the GET of the resulting
    URL resolves to a response with a success status, and the body of
    that response parses to [answer]. *)
Definition toolkit_answers (fetch : Fetch) (userInput answer : JsValue) : Prop :=
  exists query r,
    encodeURIComponent userInput = Return query /\
    fetch (lit toolkit_url ++ query) = Fulfilled r /\
    ok r = true /\
    response_json r = Fulfilled answer.

(** The toolkit call made for [userInput] comes back with the
    non-success status [st]. *)
Definition toolkit_refuses (fetch : Fetch) (userInput : JsValue) (st : Z) : Prop :=
  exists query r,
    encodeURIComponent userInput = Return query /\
    fetch (lit toolkit_url ++ query) = Fulfilled r /\
    fetch_status r = st /\
    ok r = false.

(** The promise carries no error object with a [status]: it is
    fulfilled, or rejected by the runtime, or rejected with an error
    that has no status. *)
Definition native_rejection {A : Type} (p : Settled A) : Prop :=
  match p with
  | RejectedWith e => status e = None
  | _ => True
  end.

(** A request whose [json()] does not reject with a status. *)
Definition native_request (req : NextRequest) : Prop :=
  native_rejection (json req).

(** A network on which neither [fetch] nor [response.json()] rejects
    with a status. *)
Definition native_network (fetch : Fetch) : Prop :=
  forall url,
    native_rejection (fetch url) /\
    (forall r, fetch url = Fulfilled r -> native_rejection (response_json r)).

(** A toolkit service that answers every request with the same status
    and JSON body. *)
Definition constant_toolkit (st : Z) (answer : JsValue) : Fetch :=
  fun _ => Fulfilled {| fetch_status := st; response_json := Fulfilled answer |}.

(** A JSON text written with apostrophes where the text has double
    quotes. *)
Definition json_text (s : string) : JsString :=
  map (fun c => if N.eqb c 39 then 34%N else c) (lit s).

(** The values of the embedded expressions of a tree, in document
    order: what the tree shows beyond its fixed text. *)
Fixpoint embedded (n : ReactNode) : list JsValue :=
  match n with
  | Text _ => []
  | Expr v => [v]
  | Element _ _ children => flat_map embedded children
  | CodeElement _ v => [v]
  end.

(** Rendering replaces every use of the Code component by the element
    it returns. *)
Fixpoint expand (cn : string -> string -> string) (n : ReactNode) : ReactNode :=
  match n with
  | Element tag className children => Element tag className (map (expand cn) children)
  | CodeElement className children => Code cn className children
  | _ => n
  end.

(** The text of a JSON response on the wire:
    [JSON.stringify(data)] of the data given to NextResponse.json. *)
Definition body_text (r : HttpResponse) : JsValue :=
  match body r with
  | JsonBody data => JSON_stringify data 0
  | StreamBody _ => JUndefined
  end.

(** The object returned by convertLangChainMessageToVercelMessage, read
    as the argument of convertVercelMessageToLangChainMessage: its
    [role] and [content] properties, when both are strings. *)
Definition as_vercel_message (v : JsValue) : option VercelChatMessage :=
  match v with
  | JObj props =>
      match own_property props (lit "role"), own_property props (lit "content") with
      | Some (JStr r), Some (JStr c) => Some {| role := r; content := c |}
      | _, _ => None
      end
  | _ => None
  end.

End Runtime.

Arguments JUndefined {num}.
Arguments JNull {num}.
Arguments JBool {num} b.
Arguments JNum {num} n.
Arguments JStr {num} s.
Arguments JArr {num} elems.
Arguments JObj {num} props.
Arguments Text {num} s.
Arguments StreamBody {num} stream.
Arguments Fulfilled {A} a.
Arguments Rejected {A} name msg.
Arguments RejectedWith {A} e.

(* ================================================================== *)
(** * Sample inputs *)
(* ================================================================== *)

(** Requests, toolkit answers and a tool message on which the functions
    are evaluated, with numbers kept as literals. *)

Definition request_of (body : JsValue LiteralNumbers) : NextRequest LiteralNumbers :=
  {| json := Fulfilled body |}.

(** The number written [s]. *)
Definition number (s : string) : JsValue LiteralNumbers :=
  @JNum LiteralNumbers (lit s).

(** [{ "user_input": "hi", "show_intermediate_steps": false }] *)
Definition plain_body : JsValue LiteralNumbers :=
  JObj [(lit "user_input", JStr (lit "hi"));
        (lit "show_intermediate_steps", JBool false)].

(** [{ "user_input": "hi", "show_intermediate_steps": true }] *)
Definition steps_body : JsValue LiteralNumbers :=
  JObj [(lit "user_input", JStr (lit "hi"));
        (lit "show_intermediate_steps", JBool true)].

(** [{ "show_intermediate_steps": true }]: no [user_input]. *)
Definition steps_only_body : JsValue LiteralNumbers :=
  JObj [(lit "show_intermediate_steps", JBool true)].

(** [{ "response": "hello" }] *)
Definition hello_answer : JsValue LiteralNumbers :=
  JObj [(lit "response", JStr (lit "hello"))].

(** [{ "response": { "output": "hi" } }] *)
Definition output_answer : JsValue LiteralNumbers :=
  JObj [(lit "response", JObj [(lit "output", JStr (lit "hi"))])].

(** [{ "user_input": "hi", "show_intermediate_steps": "false" }]: the
    flag is a string. *)
Definition string_flag_body : JsValue LiteralNumbers :=
  JObj [(lit "user_input", JStr (lit "hi"));
        (lit "show_intermediate_steps", JStr (lit "false"))].

(** A body whose [user_input] is a lone lead surrogate. *)
Definition surrogate_body : JsValue LiteralNumbers :=
  JObj [(lit "user_input", JStr [0xD800%N])].

(** [{ "response": { "output": [1, 2] } }] *)
Definition list_answer : JsValue LiteralNumbers :=
  JObj [(lit "response",
         JObj [(lit "output", JArr [@JNum LiteralNumbers (lit "1");
                                    @JNum LiteralNumbers (lit "2")])])].

(** A network on which every request fails. *)
Definition failing_network : Fetch LiteralNumbers :=
  fun _ => Rejected (lit "TypeError") (lit "fetch failed").

(** A toolkit that answers 200 with a page that is not JSON. *)
Definition html_toolkit : Fetch LiteralNumbers :=
  fun _ =>
    Fulfilled {| fetch_status := 200;
                 response_json :=
                   Rejected (lit "SyntaxError") (lit "Unexpected token '<'") |}.

(** A toolkit that answers only requests whose query value is made of
    unreserved characters and percent signs. *)
Definition strict_toolkit (answer : JsValue LiteralNumbers) : Fetch LiteralNumbers :=
  fun url =>
    if forallb uri_safe (skipn (List.length (lit toolkit_url)) url)
    then Fulfilled {| fetch_status := 200; response_json := Fulfilled answer |}
    else Rejected (lit "TypeError") (lit "fetch failed").

(** Chat messages: a system prompt, and tool messages whose content is
    a number and an object with a name only. *)
Definition system_prompt : VercelChatMessage :=
  {| role := lit "system"; content := lit "be brief" |}.

Definition number_step : VercelChatMessage :=
  {| role := lit "assistant"; content := lit "42" |}.

Definition name_only_step : VercelChatMessage :=
  {| role := lit "assistant"; content := json_text "{'tool_name':'search'}" |}.

(** A structured system message, as [new SystemMessage("be brief")]
    makes it. *)
Definition system_message : BaseMessage LiteralNumbers :=
  {| getType := lit "system";
     message_content := JStr (lit "be brief");
     message_tool_calls := JUndefined;
     message_role := JUndefined |}.



(** A request whose [json()] rejects with the given error. *)
Definition rejecting_request (e : JsError) : NextRequest LiteralNumbers :=
  {| json := RejectedWith e |}.

(** The tool record of the specification's example. *)
Definition search_step : VercelChatMessage :=
  {| role := lit "assistant";
     content :=
       json_text "{'tool_name':'search','tool_input':{'q':'x'},'tool_output':'result'}" |}.

Definition search_input : JsValue LiteralNumbers :=
  JObj [(lit "q", JStr (lit "x"))].

Definition search_step_props : list (JsString * JsValue LiteralNumbers) :=
  [(lit "tool_name", JStr (lit "search"));
   (lit "tool_input", search_input);
   (lit "tool_output", JStr (lit "result"))].

(** What IntermediateStep returns for [search_step]. *)
Definition search_step_view : ReactNode LiteralNumbers :=
  tool_step_view (JStr (lit "search")) (JSON_stringify search_input 2)
    (JStr (lit "result")).

(* ================================================================== *)
(** * Properties *)
(* ================================================================== *)

(** ** The UTF-8 encoder *)

Lemma lor_byte (a b : N) : (a < 256 -> b < 256 -> N.lor a b < 256)%N.
Proof.
  intros Ha Hb.
  assert (Hlog : forall x, (x < 256 -> N.log2 x < 8)%N).
  { intros x Hx. destruct (N.eq_dec x 0) as [-> | Hx0]; [reflexivity | ].
    apply N.log2_lt_pow2; [lia | exact Hx]. }
  destruct (N.eq_dec (N.lor a b) 0) as [-> | Hn]; [reflexivity | ].
  change 256%N with (2 ^ 8)%N. apply N.log2_lt_pow2; [lia | ].
  rewrite N.log2_lor. pose proof (Hlog a Ha). pose proof (Hlog b Hb). lia.
Qed.

Lemma continuation_byte (x : N) : (N.lor 0x80 (N.land x 0x3F) < 256)%N.
Proof.
  apply lor_byte; [reflexivity | ].
  change 0x3F%N with (N.ones 6). rewrite N.land_ones.
  pose proof (N.mod_lt x (2 ^ 6)%N). lia.
Qed.

Lemma shiftr_bound (x k m : N) : (x < 2 ^ k * m -> N.shiftr x k < m)%N.
Proof.
  intros H. rewrite N.shiftr_div_pow2. apply N.Div0.div_lt_upper_bound. exact H.
Qed.

(** Every code point below 2^21 is encoded in bytes. *)
Lemma utf8_encode_code_point_bytes (cp : N) :
  (cp < 0x200000)%N -> Forall (fun b => b < 256)%N (utf8_encode_code_point cp).
Proof.
  intros Hcp. unfold utf8_encode_code_point.
  destruct (N.ltb_spec cp 0x80); [repeat constructor; lia | ].
  destruct (N.ltb_spec cp 0x800).
  { repeat constructor; [ | apply continuation_byte].
    apply lor_byte; [reflexivity | ].
    assert (N.shiftr cp 6 < 32)%N by (apply shiftr_bound; simpl; lia). lia. }
  destruct (N.ltb_spec cp 0x10000).
  { repeat constructor; try apply continuation_byte.
    apply lor_byte; [reflexivity | ].
    assert (N.shiftr cp 12 < 16)%N by (apply shiftr_bound; simpl; lia). lia. }
  repeat constructor; try apply continuation_byte.
  apply lor_byte; [reflexivity | ].
  assert (N.shiftr cp 18 < 8)%N by (apply shiftr_bound; simpl; lia). lia.
Qed.

Lemma surrogate_pair_bounded (hi lo : CodeUnit) :
  is_lead hi = true -> is_trail lo = true -> (surrogate_pair hi lo < 0x110000)%N.
Proof.
  unfold is_lead, is_trail, surrogate_pair. intros Hhi Hlo.
  apply andb_prop in Hhi as [Hhi1 Hhi2]. apply andb_prop in Hlo as [Hlo1 Hlo2].
  apply N.leb_le in Hhi1, Hhi2, Hlo1, Hlo2. lia.
Qed.

Lemma code_points_bounded (s : JsString) :
  Forall (fun c => c < 65536)%N s -> Forall code_point_bounded (code_points s).
Proof.
  remember (List.length s) as n eqn:Hn. revert s Hn.
  induction n as [n IH] using lt_wf_ind. intros s Hn Hs.
  destruct s as [ | c rest]; [constructor | ].
  inversion Hs as [ | ? ? Hc Hrest]; subst. simpl.
  assert (IHrest : Forall code_point_bounded (code_points rest)).
  { apply (IH (List.length rest)); [simpl; lia | reflexivity | exact Hrest]. }
  destruct (is_lead c) eqn:Hlead.
  - destruct rest as [ | lo rest']; [repeat constructor | ].
    destruct (is_trail lo) eqn:Htrail; [ | constructor; [exact I | exact IHrest]].
    constructor; [apply surrogate_pair_bounded; assumption | ].
    inversion Hrest; subst.
    apply (IH (List.length rest')); [simpl; lia | reflexivity | assumption].
  - destruct (is_trail c); constructor; try exact IHrest; simpl; [exact I | lia].
Qed.

(** The encoding of a string of 16-bit code units is a sequence of
    bytes. *)
Lemma utf8_encode_bytes (s : JsString) :
  Forall (fun c => c < 65536)%N s -> Forall (fun b => b < 256)%N (utf8_encode s).
Proof.
  intros Hs. unfold utf8_encode.
  pose proof (code_points_bounded Hs) as Hps.
  induction Hps as [ | p ps Hp _ IH]; simpl; [constructor | ].
  apply Forall_app. split; [ | exact IH].
  destruct p as [cp | cu]; simpl in Hp; apply utf8_encode_code_point_bytes; lia.
Qed.

(** ASCII text is its own encoding. *)
Lemma utf8_encode_ascii (s : JsString) :
  Forall (fun c => c < 128)%N s -> utf8_encode s = s.
Proof.
  unfold utf8_encode. induction 1 as [ | c rest Hc _ IH]; [reflexivity | ].
  simpl. unfold is_lead, is_trail.
  destruct (N.leb_spec 0xD800 c); [lia | ]. destruct (N.leb_spec 0xDC00 c); [lia | ].
  simpl. rewrite IH. unfold utf8_encode_code_point.
  destruct (N.ltb_spec c 0x80); [reflexivity | lia].
Qed.

Section Properties.

Variable num : NumberModel.

Local Abbreviation JsValue := (JsValue num).
Local Abbreviation Fetch := (Fetch num).
Local Abbreviation NextRequest := (NextRequest num).
Local Abbreviation BaseMessage := (BaseMessage num).

(** ** Strings *)

Lemma str_eqb_eq (a b : JsString) : str_eqb a b = true -> a = b.
Proof.
  revert b. induction a as [ | x a IH]; intros [ | y b]; simpl; intros H;
    try discriminate H; [reflexivity | ].
  apply andb_prop in H as [Hxy Hab].
  apply N.eqb_eq in Hxy. subst y. f_equal. apply IH. exact Hab.
Qed.

(** ** Exceptions raised by the runtime carry no status *)

Lemma throws_native_Return {A : Type} (a : A) : throws_native (Return a).
Proof. intros e H; discriminate H. Qed.

Lemma throws_native_Throw {A : Type} (name msg : string) :
  throws_native (@Throw A (NativeError name msg)).
Proof. intros e H; injection H as <-; reflexivity. Qed.

Lemma throws_native_bind {A B : Type} (c : Completion A) (k : A -> Completion B) :
  throws_native c -> (forall a, throws_native (k a)) -> throws_native (bind c k).
Proof.
  intros Hc Hk e. destruct c as [a | e0]; simpl.
  - apply Hk.
  - intros H; injection H as <-. apply Hc; reflexivity.
Qed.

Lemma throws_native_await {A : Type} (p : Settled A) :
  native_rejection p -> throws_native (await p).
Proof.
  destruct p as [a | name msg | e0]; simpl; intros Hp e H.
  - discriminate H.
  - injection H as <-. reflexivity.
  - injection H as <-. exact Hp.
Qed.

Lemma throws_native_Get (v : JsValue) (p : PropertyName) : throws_native (Get v p).
Proof.
  destruct v; simpl;
    first [apply throws_native_Return | apply throws_native_Throw].
Qed.

Lemma throws_native_ToString (v : JsValue) : throws_native (ToString v).
Proof.
  revert v. fix IH 1.
  intros [ | | b | n | s | elems | props]; simpl;
    try apply throws_native_Return.
  - apply throws_native_bind; [ | intros; apply throws_native_Return].
    revert elems. fix IHelems 1. intros [ | e es].
    + apply throws_native_Return.
    + apply throws_native_bind.
      * pose proof (IH e) as He.
        destruct e; first [apply throws_native_Return | exact He].
      * intros s. apply throws_native_bind; [apply IHelems | ].
        intros; apply throws_native_Return.
  - destruct (has_own props (lit "toString"));
      [apply throws_native_Throw | apply throws_native_Return].
Qed.

Lemma throws_native_uri_encode (ps : list CodePoint) : throws_native (uri_encode ps).
Proof.
  induction ps as [ | [cp | cu] ps IH]; simpl.
  - apply throws_native_Return.
  - apply throws_native_bind; [exact IH | intros; apply throws_native_Return].
  - apply throws_native_Throw.
Qed.

Lemma throws_native_encodeURIComponent (v : JsValue) :
  throws_native (encodeURIComponent v).
Proof.
  apply throws_native_bind;
    [apply throws_native_ToString | intros; apply throws_native_uri_encode].
Qed.

Lemma throws_native_TextEncoder_encode (v : JsValue) :
  throws_native (TextEncoder_encode v).
Proof.
  unfold TextEncoder_encode.
  destruct v; cbv beta iota; try apply throws_native_Return;
    (apply throws_native_bind;
     [apply throws_native_ToString | intros; apply throws_native_Return]).
Qed.

Lemma throws_native_NextResponse_json (data : JsValue) (st : Z) :
  throws_native (NextResponse_json data st).
Proof.
  unfold NextResponse_json.
  destruct (JSON_stringify data 0); try apply throws_native_Throw;
    (destruct ((200 <=? st)%Z && (st <=? 599)%Z);
     [destruct (null_body_status st) | ];
     first [apply throws_native_Return | apply throws_native_Throw]).
Qed.

Lemma throws_native_fetchGitHubTools (fetch : Fetch) (userInput : JsValue) :
  native_network fetch ->
  throws_native (fetchGitHubTools fetch userInput).
Proof.
  intros Hnetwork. unfold fetchGitHubTools.
  apply throws_native_bind; [apply throws_native_encodeURIComponent | intros query].
  destruct (Hnetwork (lit toolkit_url ++ query)) as [Hfetch Hjson].
  destruct (fetch (lit toolkit_url ++ query)) as [r | name msg | e0] eqn:Hurl;
    cbn [await bind].
  - destruct (negb (ok r)); [apply throws_native_Throw | ].
    apply throws_native_await, (Hjson r eq_refl).
  - intros e H. injection H as <-. reflexivity.
  - intros e H. injection H as <-. exact Hfetch.
Qed.

Lemma throws_native_new_ReadableStream (responseContent : JsValue) :
  throws_native
    (new_ReadableStream
       (fun controller =>
          bind (TextEncoder_encode responseContent)
            (fun chunk => bind (controller_enqueue chunk controller) controller_close))).
Proof.
  unfold new_ReadableStream.
  apply throws_native_bind; [apply throws_native_TextEncoder_encode | intros chunk].
  apply throws_native_bind.
  - unfold controller_enqueue. simpl. apply throws_native_Return.
  - intros c. unfold controller_close.
    destruct (closeRequested c);
      [apply throws_native_Throw | apply throws_native_Return].
Qed.

(** When no promise rejects with a status, every exception that leaves
    the [try] block of POST was raised by the runtime or by
    [new Error(...)]: it has no [status]. *)
Lemma throws_native_POST_try (fetch : Fetch) (req : NextRequest) :
  native_request req -> native_network fetch ->
  throws_native (POST_try fetch req).
Proof.
  intros Hrequest Hnetwork. unfold POST_try.
  apply throws_native_bind; [apply throws_native_await, Hrequest | intros body].
  apply throws_native_bind; [apply throws_native_Get | intros userInput].
  apply throws_native_bind; [apply throws_native_Get | intros steps].
  apply throws_native_bind;
    [apply throws_native_fetchGitHubTools, Hnetwork | intros toolsResponse].
  apply throws_native_bind; [apply throws_native_Get | intros responseContent].
  destruct (negb (ToBoolean steps)).
  - apply throws_native_bind;
      [apply throws_native_new_ReadableStream | intros; apply throws_native_Return].
  - apply throws_native_bind;
      [apply throws_native_Get | intros; apply throws_native_NextResponse_json].
Qed.

(** ** Reading properties *)

Lemma Get_own (props : list (JsString * JsValue)) (p : PropertyName) (x : JsValue) :
  own_property props (property_key p) = Some x ->
  Get (JObj props) p = Return x.
Proof. intros H. simpl. rewrite H. reflexivity. Qed.

Lemma Get_missing (props : list (JsString * JsValue)) (p : PropertyName) :
  has_own props (property_key p) = false ->
  Get (JObj props) p = Return JUndefined.
Proof.
  unfold has_own. intros H. simpl.
  destruct (own_property props (property_key p)); [discriminate H | reflexivity].
Qed.

(** A value that has been read once can be read again, under any name. *)
Lemma Get_again (v x : JsValue) (p q : PropertyName) :
  Get v p = Return x -> exists y, Get v q = Return y.
Proof.
  destruct v; simpl; intros H; try discriminate H; eexists; reflexivity.
Qed.

(** ** The toolkit call *)

Lemma fetchGitHubTools_answers (fetch : Fetch) (userInput answer : JsValue) :
  toolkit_answers fetch userInput answer ->
  fetchGitHubTools fetch userInput = Return answer.
Proof.
  intros (query & r & Hq & Hf & Hok & Hjson).
  unfold fetchGitHubTools. rewrite Hq. cbn [bind await]. rewrite Hf. simpl.
  rewrite Hok. cbn [bind await]. rewrite Hjson. reflexivity.
Qed.

Lemma fetchGitHubTools_refuses (fetch : Fetch) (userInput : JsValue) (st : Z) :
  toolkit_refuses fetch userInput st ->
  fetchGitHubTools fetch userInput = Throw (Error "Failed to fetch GitHub Toolkit").
Proof.
  intros (query & r & Hq & Hf & _ & Hok).
  unfold fetchGitHubTools. rewrite Hq. cbn [bind await]. rewrite Hf. simpl.
  rewrite Hok. reflexivity.
Qed.

(** A missing [user_input] reaches the toolkit as the text
    [undefined]. *)
Lemma encodeURIComponent_undefined :
  encodeURIComponent (@JUndefined num) = Return (lit "undefined").
Proof. reflexivity. Qed.

(** Text made of unreserved characters is its own query value. *)
Lemma encodeURIComponent_unreserved (s : JsString) :
  forallb uri_unreserved s = true ->
  encodeURIComponent (@JStr num s) = Return s.
Proof.
  unfold encodeURIComponent. cbn [ToString bind].
  induction s as [ | c rest IH]; [reflexivity | ].
  cbn [forallb]. intros H. apply andb_prop in H as [Hc Hrest].
  assert (Hplain : is_lead c = false /\ is_trail c = false).
  { unfold uri_unreserved, is_digit, in_range in Hc. unfold is_lead, is_trail.
    split; apply andb_false_iff; left; apply N.leb_gt;
      repeat (apply orb_prop in Hc as [Hc | Hc]);
      try (apply andb_prop in Hc as [_ Hc]; apply N.leb_le in Hc; lia);
      (cbn [existsb lit map list_ascii_of_string N_of_ascii] in Hc;
       repeat (apply orb_prop in Hc as [Hc | Hc]); try discriminate Hc;
       apply N.eqb_eq in Hc; subst c; reflexivity). }
  destruct Hplain as [Hlead Htrail].
  cbn [code_points]. rewrite Hlead, Htrail. cbn [uri_encode].
  rewrite (IH Hrest). cbn [bind]. rewrite Hc. reflexivity.
Qed.

(** ** The catch block *)

Lemma POST_catch_native (e : JsError) :
  status e = None ->
  POST_catch num e =
  Return {| response_status := 500;
            content_type := "application/json";
            body := JsonBody (JObj [(lit "error", JStr (message e))]) |}.
Proof. intros H. unfold POST_catch. rewrite H. reflexivity. Qed.




(** ** The claims about POST *)

(** C1. For a request body with a string [user_input] and a falsy
    [show_intermediate_steps], when the toolkit call succeeds with a JSON
    body whose [response] field is a string [s], POST returns a 200
    streaming text response; its stream gives one chunk, the UTF-8
    encoding of [s], and is then done. *)
Theorem POST_streams_one_chunk
  (fetch : Fetch) (req : NextRequest) (body steps answer : JsValue)
  (u s : JsString) :
  json req = Fulfilled body ->
  Get body p_user_input = Return (JStr u) ->
  Get body p_show_intermediate_steps = Return steps ->
  ToBoolean steps = false ->
  toolkit_answers fetch (JStr u) answer ->
  Get answer p_response = Return (JStr s) ->
  exists stream rest,
    POST fetch req =
      Return {| response_status := 200;
                content_type := "text/plain; charset=utf-8";
                body := StreamBody stream |} /\
    read stream = (Chunk (utf8_encode s), rest) /\
    read rest = (Done, rest).
Proof.
  intros Hbody Hinput Hsteps Hfalsy Hcall Hresponse.
  exists {| queue := [utf8_encode s]; closeRequested := true |},
         {| queue := []; closeRequested := true |}.
  split; [ | split; reflexivity].
  unfold POST, POST_try.
  rewrite Hbody; cbn [bind await]. rewrite Hinput; cbn [bind await]. rewrite Hsteps; cbn [bind await].
  rewrite (fetchGitHubTools_answers Hcall); cbn [bind await].
  rewrite Hresponse; cbn [bind await]. rewrite Hfalsy; reflexivity.
Qed.

(** C2. For a request body with a truthy [show_intermediate_steps],
    when the toolkit call succeeds with a JSON body whose [response]
    field is an object with a string field [output] = [o], POST returns
    status 200 with the JSON body
    [{ messages: [{ content: o, role: "assistant" }] }]. *)
Theorem POST_returns_messages
  (fetch : Fetch) (req : NextRequest)
  (body userInput steps answer responseContent : JsValue) (o : JsString) :
  json req = Fulfilled body ->
  Get body p_user_input = Return userInput ->
  Get body p_show_intermediate_steps = Return steps ->
  ToBoolean steps = true ->
  toolkit_answers fetch userInput answer ->
  Get answer p_response = Return responseContent ->
  Get responseContent p_output = Return (JStr o) ->
  POST fetch req =
    Return {| response_status := 200;
              content_type := "application/json";
              body := JsonBody
                        (JObj [(lit "messages",
                                JArr [JObj [(lit "content", JStr o);
                                            (lit "role", JStr (lit "assistant"))]])]) |}.
Proof.
  intros Hbody Hinput Hsteps Htruthy Hcall Hresponse Houtput.
  unfold POST, POST_try.
  rewrite Hbody; cbn [bind await]. rewrite Hinput; cbn [bind await]. rewrite Hsteps; cbn [bind await].
  rewrite (fetchGitHubTools_answers Hcall); cbn [bind await].
  rewrite Hresponse; cbn [bind await]. rewrite Htruthy; cbn [bind await].
  rewrite Houtput; reflexivity.
Qed.

(** C3. If the toolkit call made for a request comes back with a
    non-success HTTP status, POST returns the JSON error body
    [{ error: "Failed to fetch GitHub Toolkit" }]; the error thrown has
    no status, so the response status is 500. *)
Theorem POST_toolkit_failure_is_500
  (fetch : Fetch) (req : NextRequest) (body userInput : JsValue) (st : Z) :
  json req = Fulfilled body ->
  Get body p_user_input = Return userInput ->
  toolkit_refuses fetch userInput st ->
  POST_try fetch req = Throw (Error "Failed to fetch GitHub Toolkit") /\
  status (Error "Failed to fetch GitHub Toolkit") = None /\
  POST fetch req =
    Return {| response_status := 500;
              content_type := "application/json";
              body := JsonBody
                        (JObj [(lit "error",
                                JStr (lit "Failed to fetch GitHub Toolkit"))]) |}.
Proof.
  intros Hbody Hinput Hcall.
  destruct (@Get_again body userInput p_user_input p_show_intermediate_steps Hinput)
    as [steps Hsteps].
  assert (Htry : POST_try fetch req = Throw (Error "Failed to fetch GitHub Toolkit")).
  { unfold POST_try.
    rewrite Hbody; cbn [bind await]. rewrite Hinput; cbn [bind].
    rewrite Hsteps; cbn [bind].
    rewrite (fetchGitHubTools_refuses Hcall). reflexivity. }
  split; [exact Htry | split; [reflexivity | ]].
  unfold POST. rewrite Htry. reflexivity.
Qed.


(** ** JSON.parse returns JSON values *)

Lemma props_json_replace (props : list (JsString * JsValue)) (k : JsString) (v : JsValue) :
  props_json props = true -> is_json v = true ->
  props_json (replace_property props k v) = true.
Proof.
  unfold props_json. intros Hprops Hv.
  induction props as [ | [k' v'] rest IH]; simpl in *; [reflexivity | ].
  apply andb_prop in Hprops as [Hv' Hrest].
  destruct (str_eqb k' k); simpl.
  - rewrite Hv, Hrest. reflexivity.
  - rewrite Hv', (IH Hrest). reflexivity.
Qed.

Lemma props_json_insert (props : list (JsString * JsValue)) (i : N) (k : JsString) (v : JsValue) :
  props_json props = true -> is_json v = true ->
  props_json (insert_index props i k v) = true.
Proof.
  unfold props_json. intros Hprops Hv.
  induction props as [ | [k' v'] rest IH]; simpl in *.
  - rewrite Hv. reflexivity.
  - apply andb_prop in Hprops as [Hv' Hrest].
    destruct (array_index k') as [j | ]; [destruct (i <? j)%N | ]; simpl;
      rewrite ?Hv, ?Hv', ?Hrest, ?(IH Hrest); reflexivity.
Qed.

Lemma props_json_CreateDataProperty
  (props : list (JsString * JsValue)) (k : JsString) (v : JsValue) :
  props_json props = true -> is_json v = true ->
  props_json (CreateDataProperty props k v) = true.
Proof.
  intros Hprops Hv. unfold CreateDataProperty.
  destruct (has_own props k); [apply props_json_replace; assumption | ].
  destruct (array_index k); [apply props_json_insert; assumption | ].
  unfold props_json in *. rewrite forallb_app, Hprops. simpl. rewrite Hv. reflexivity.
Qed.

Lemma props_json_own (props : list (JsString * JsValue)) (k : JsString) (x : JsValue) :
  props_json props = true -> own_property props k = Some x -> is_json x = true.
Proof.
  unfold props_json.
  induction props as [ | [k' v'] rest IH]; simpl; intros Hprops Hown;
    [discriminate Hown | ].
  apply andb_prop in Hprops as [Hv' Hrest].
  destruct (str_eqb k' k).
  - injection Hown as <-. exact Hv'.
  - apply IH; assumption.
Qed.

Lemma forallb_rev {A : Type} (f : A -> bool) (l : list A) :
  forallb f l = true -> forallb f (rev l) = true.
Proof.
  rewrite !forallb_forall. intros H x Hx. apply H, in_rev, Hx.
Qed.

Lemma state_json_deliver (v : JsValue) (stack : list (Frame num)) :
  is_json v = true -> forallb (@frame_json num) stack = true ->
  state_json (deliver v stack) = true.
Proof.
  intros Hv Hstack. destruct stack as [ | [es | props k] stack']; simpl in *.
  - exact Hv.
  - apply andb_prop in Hstack as [Hes Hstack']. rewrite Hv, Hes, Hstack'. reflexivity.
  - apply andb_prop in Hstack as [Hprops Hstack'].
    rewrite (@props_json_CreateDataProperty props k v Hprops Hv), Hstack'. reflexivity.
Qed.

Lemma state_json_value_start (t : Token) (stack : list (Frame num)) (st : ParseState num) :
  forallb (@frame_json num) stack = true ->
  parse_value_start t stack = Some st -> state_json st = true.
Proof.
  intros Hstack. destruct t; simpl; intros H; try discriminate H;
    injection H as <-; try (apply state_json_deliver; [reflexivity | exact Hstack]);
    exact Hstack.
Qed.

Lemma state_json_step (st st' : ParseState num) (t : Token) :
  state_json st = true -> parse_step st t = Some st' -> state_json st' = true.
Proof.
  destruct st as [stack | stack | stack | props stack | props k stack
                 | es stack | props stack | v]; simpl; intros Hst Hstep.
  - apply (@state_json_value_start t stack st' Hst Hstep).
  - destruct t; simpl in Hstep; try discriminate Hstep; injection Hstep as <-;
      first [ exact Hst
            | simpl; exact Hst
            | apply state_json_deliver; [reflexivity | exact Hst] ].
  - destruct t; try discriminate Hstep; injection Hstep as <-.
    + apply state_json_deliver; [reflexivity | exact Hst].
    + simpl. exact Hst.
  - destruct t; try discriminate Hstep; injection Hstep as <-. simpl. exact Hst.
  - destruct t; try discriminate Hstep; injection Hstep as <-. simpl. exact Hst.
  - apply andb_prop in Hst as [Hes Hstack].
    destruct t; try discriminate Hstep; injection Hstep as <-.
    + apply state_json_deliver; [ | exact Hstack].
      simpl. apply forallb_rev. exact Hes.
    + simpl. rewrite Hes, Hstack. reflexivity.
  - apply andb_prop in Hst as [Hprops Hstack].
    destruct t; try discriminate Hstep; injection Hstep as <-.
    + apply state_json_deliver; [exact Hprops | exact Hstack].
    + simpl. rewrite Hprops, Hstack. reflexivity.
  - discriminate Hstep.
Qed.

Lemma parse_from_json (toks : list Token) (st : ParseState num) (v : JsValue) :
  state_json st = true -> parse_from st toks = Some v -> is_json v = true.
Proof.
  revert st. induction toks as [ | t toks IH]; simpl; intros st Hst Hparse.
  - destruct st; try discriminate Hparse. injection Hparse as <-. exact Hst.
  - destruct (parse_step st t) as [st' | ] eqn:Hstep; [ | discriminate Hparse].
    apply (IH st'); [apply (@state_json_step st st' t Hst Hstep) | exact Hparse].
Qed.

(** What JSON.parse returns contains no [undefined]. *)
Lemma JSON_parse_is_json (text : JsString) (v : JsValue) :
  JSON_parse num text = Return v -> is_json v = true.
Proof.
  unfold JSON_parse. destruct (tokenize text) as [toks | ]; [ | discriminate].
  destruct (parse_from (SValue []) toks) as [v' | ] eqn:Hparse; [ | discriminate].
  intros H. injection H as <-.
  apply (@parse_from_json toks (SValue []) v' eq_refl Hparse).
Qed.

(** JSON.stringify of a JSON value is a string, never [undefined]. *)
Lemma JSON_stringify_json (v : JsValue) (space : nat) :
  is_json v = true -> exists text, JSON_stringify v space = JStr text.
Proof.
  unfold JSON_stringify. destruct v; simpl; intros H; try discriminate H;
    eexists; reflexivity.
Qed.

(** ** The claims about IntermediateStep *)

(** Expanding Code shows the same values. *)
Lemma embedded_expand (cn : string -> string -> string) (n : ReactNode num) :
  embedded (expand cn n) = embedded n.
Proof.
  revert n. fix IH 1. intros [s | v | tag className children | className v];
    simpl; try reflexivity.
  revert children. fix IHchildren 1. intros [ | child rest]; simpl.
  - reflexivity.
  - rewrite (IH child), (IHchildren rest). reflexivity.
Qed.

(** C5. When the content of the message parses as JSON to an object
    with fields [tool_name], [tool_input] and [tool_output],
    IntermediateStep returns an element (and logs nothing) that shows
    the value of [tool_name], [tool_input] printed by
    [JSON.stringify(_, null, 2)], and [tool_output]: as it is when it is
    a string, printed by [JSON.stringify(_, null, 2)] otherwise.  Both
    texts handed to Code are strings. *)
Theorem IntermediateStep_renders_tool_data
  (message : VercelChatMessage) (props : list (JsString * JsValue))
  (name input output : JsValue) :
  JSON_parse num (content message) = Return (JObj props) ->
  own_property props (lit "tool_name") = Some name ->
  own_property props (lit "tool_input") = Some input ->
  own_property props (lit "tool_output") = Some output ->
  let shown := if is_string output then output else JSON_stringify output 2 in
  IntermediateStep num message
    = (Some (tool_step_view name (JSON_stringify input 2) shown), []) /\
  embedded (tool_step_view name (JSON_stringify input 2) shown)
    = [name; JSON_stringify input 2; shown] /\
  (exists inputText, JSON_stringify input 2 = JStr inputText) /\
  (exists outputText, shown = JStr outputText).
Proof.
  intros Hparse Hname Hinput Houtput shown.
  pose proof (JSON_parse_is_json _ Hparse) as Hjson. simpl in Hjson.
  split; [ | split; [reflexivity | split]].
  - unfold IntermediateStep, IntermediateStep_try.
    rewrite Hparse; cbn [bind].
    rewrite (@Get_own props p_tool_name name Hname); cbn [bind].
    rewrite (@Get_own props p_tool_input input Hinput); cbn [bind].
    rewrite (@Get_own props p_tool_output output Houtput); cbn [bind].
    subst shown. destruct (is_string output); reflexivity.
  - apply JSON_stringify_json.
    apply (@props_json_own props (lit "tool_input") input Hjson Hinput).
  - subst shown. destruct output; simpl;
      try (apply JSON_stringify_json;
           apply (@props_json_own props (lit "tool_output") _ Hjson Houtput)).
    eexists; reflexivity.
Qed.

(** C6. When the content of the message is not valid JSON (JSON.parse
    throws [e]), IntermediateStep does not throw: it logs [e] and
    returns null. *)
Theorem IntermediateStep_invalid_json
  (message : VercelChatMessage) (e : JsError) :
  JSON_parse num (content message) = Throw e ->
  IntermediateStep num message = (None, [("Error parsing tool data:"%string, e)]).
Proof.
  intros Hparse. unfold IntermediateStep, IntermediateStep_try.
  rewrite Hparse. reflexivity.
Qed.

(** C9. The content [null] is valid JSON and parses to the null value,
    yet IntermediateStep returns null for it: reading [tool_name] of the
    parsed value throws inside the [try] block and the [catch] block
    logs the TypeError.  So an element is returned only for content that
    is valid JSON, but not for all such content. *)
Theorem IntermediateStep_null_content (r : JsString) :
  JSON_parse num (lit "null") = Return JNull /\
  IntermediateStep num {| role := r; content := lit "null" |}
    = (None,
       [("Error parsing tool data:"%string,
         TypeError "Cannot read properties of null (reading 'tool_name')")]) /\
  (forall message view log,
      IntermediateStep num message = (Some view, log) ->
      exists toolData, JSON_parse num (content message) = Return toolData).
Proof.
  split; [reflexivity | split; [reflexivity | ]].
  intros message view log. unfold IntermediateStep, IntermediateStep_try.
  destruct (JSON_parse num (content message)) as [toolData | e].
  - intros _. exists toolData. reflexivity.
  - cbn [bind]. intros H. discriminate H.
Qed.

(** ** The claims about the message converters *)

Lemma convert_user_message (c : JsString) :
  convertLangChainMessageToVercelMessage
    (convertVercelMessageToLangChainMessage num {| role := lit "user"; content := c |})
  = JObj [(lit "content", JStr c); (lit "role", JStr (lit "user"))].
Proof. reflexivity. Qed.

Lemma convert_assistant_message (c : JsString) :
  convertLangChainMessageToVercelMessage
    (convertVercelMessageToLangChainMessage num {| role := lit "assistant"; content := c |})
  = JObj [(lit "content", JStr c); (lit "role", JStr (lit "assistant"));
          (lit "tool_calls", JArr [])].
Proof. reflexivity. Qed.

(** C7. Converting the message [{ role: "user", content: "hi" }] to a
    structured message and back gives [{ content: "hi", role: "user" }],
    an object without a [tool_calls] property. *)
Theorem user_message_round_trip :
  exists props,
    convertLangChainMessageToVercelMessage
      (convertVercelMessageToLangChainMessage num
         {| role := lit "user"; content := lit "hi" |})
    = JObj props /\
    props = [(lit "content", JStr (lit "hi")); (lit "role", JStr (lit "user"))] /\
    has_own props (lit "tool_calls") = false.
Proof.
  eexists. split; [apply convert_user_message | split; reflexivity].
Qed.

(** C8. convertLangChainMessageToVercelMessage gives a human message
    the role [user], an ai message the role [assistant] together with
    the tool calls of the message, and any other message its own type
    tag as role; the content is carried over unchanged in every case. *)
Theorem convertLangChainMessageToVercelMessage_roles (m : BaseMessage) :
  (getType m = lit "human" ->
   convertLangChainMessageToVercelMessage m
   = JObj [(lit "content", message_content m); (lit "role", JStr (lit "user"))]) /\
  (getType m = lit "ai" ->
   convertLangChainMessageToVercelMessage m
   = JObj [(lit "content", message_content m);
           (lit "role", JStr (lit "assistant"));
           (lit "tool_calls", message_tool_calls m)]) /\
  (getType m <> lit "human" -> getType m <> lit "ai" ->
   convertLangChainMessageToVercelMessage m
   = JObj [(lit "content", message_content m); (lit "role", JStr (getType m))]) /\
  (exists rest,
      convertLangChainMessageToVercelMessage m
      = JObj ((lit "content", message_content m) :: rest)).
Proof.
  unfold convertLangChainMessageToVercelMessage. repeat split.
  - intros H. rewrite H. reflexivity.
  - intros H. rewrite H. reflexivity.
  - intros Hhuman Hai.
    destruct (str_eqb (getType m) (lit "human")) eqn:E1;
      [exfalso; apply Hhuman; apply str_eqb_eq; exact E1 | ].
    destruct (str_eqb (getType m) (lit "ai")) eqn:E2;
      [exfalso; apply Hai; apply str_eqb_eq; exact E2 | ].
    reflexivity.
  - destruct (str_eqb (getType m) (lit "human"));
      [ | destruct (str_eqb (getType m) (lit "ai"))]; eexists; reflexivity.
Qed.

(** ** A request without [user_input] *)

Lemma fetchGitHubTools_undefined (fetch : Fetch) :
  fetchGitHubTools fetch JUndefined =
  bind (await (fetch (lit "http://127.0.0.1:8000/github-toolkit?user_input=undefined")))
    (fun response =>
       if negb (ok response)
       then Throw (Error "Failed to fetch GitHub Toolkit")
       else await (response_json response)).
Proof. reflexivity. Qed.

(** C10, amended.  A request body without [user_input] is not
    rejected: POST asks the toolkit with the query [user_input=undefined].
    What the network does at that URL, and only there, decides the
    response: a failed request or a non-success status gives the 500
    error body; and when the call succeeds and its JSON body can be
    reshaped (its [response] field can be encoded as text when no steps
    are asked for, and is neither null nor undefined when steps are
    asked for), the handler returns the 200 response built from that
    body. *)
Theorem POST_without_user_input
  (fetch : Fetch) (req : NextRequest) (body steps : JsValue) :
  json req = Fulfilled body ->
  Get body p_user_input = Return JUndefined ->
  Get body p_show_intermediate_steps = Return steps ->
  let url := lit "http://127.0.0.1:8000/github-toolkit?user_input=undefined" in
  (forall fetch' : Fetch, fetch' url = fetch url -> POST fetch' req = POST fetch req) /\
  (forall name msg,
      fetch url = Rejected name msg ->
      POST fetch req =
        Return {| response_status := 500;
                  content_type := "application/json";
                  body := JsonBody (JObj [(lit "error", JStr msg)]) |}) /\
  (forall r,
      fetch url = Fulfilled r -> ok r = false ->
      POST fetch req =
        Return {| response_status := 500;
                  content_type := "application/json";
                  body := JsonBody
                            (JObj [(lit "error",
                                    JStr (lit "Failed to fetch GitHub Toolkit"))]) |}) /\
  (forall r answer responseContent,
      fetch url = Fulfilled r -> ok r = true ->
      response_json r = Fulfilled answer ->
      Get answer p_response = Return responseContent ->
      (ToBoolean steps = false ->
       forall chunk,
         TextEncoder_encode responseContent = Return chunk ->
         POST fetch req =
           Return {| response_status := 200;
                     content_type := "text/plain; charset=utf-8";
                     body := StreamBody {| queue := [chunk]; closeRequested := true |} |}) /\
      (ToBoolean steps = true ->
       forall out,
         Get responseContent p_output = Return out ->
         POST fetch req =
           Return {| response_status := 200;
                     content_type := "application/json";
                     body := JsonBody
                               (JObj [(lit "messages",
                                       JArr [JObj [(lit "content", out);
                                                   (lit "role",
                                                    JStr (lit "assistant"))]])]) |})).
Proof.
  intros Hbody Hinput Hsteps url.
  assert (Hpost : forall f : Fetch,
             POST f req =
             try_catch
               (bind (fetchGitHubTools f JUndefined)
                  (fun toolsResponse =>
                     bind (Get toolsResponse p_response)
                       (fun responseContent =>
                          if negb (ToBoolean steps) then
                            bind (new_ReadableStream
                                    (fun controller =>
                                       bind (TextEncoder_encode responseContent)
                                         (fun chunk =>
                                            bind (controller_enqueue chunk controller)
                                              controller_close)))
                              (fun transformStream =>
                                 Return (StreamingTextResponse num transformStream))
                          else
                            bind (Get responseContent p_output)
                              (fun out =>
                                 NextResponse_json
                                   (JObj [(lit "messages",
                                           JArr [JObj [(lit "content", out);
                                                       (lit "role",
                                                        JStr (lit "assistant"))]])])
                                   200))))
               (POST_catch num)).
  { intros f. unfold POST, POST_try.
    rewrite Hbody; cbn [bind await]. rewrite Hinput; cbn [bind].
    rewrite Hsteps; cbn [bind]. reflexivity. }
  split; [ | split; [ | split]].
  - intros fetch' Hagree. rewrite !Hpost, !fetchGitHubTools_undefined.
    fold url. rewrite Hagree. reflexivity.
  - intros name msg Hfetch. rewrite Hpost, fetchGitHubTools_undefined.
    fold url. rewrite Hfetch. reflexivity.
  - intros r Hfetch Hok. rewrite Hpost, fetchGitHubTools_undefined.
    fold url. rewrite Hfetch; cbn [bind await]. rewrite Hok. reflexivity.
  - intros r answer responseContent Hfetch Hok Hjson Hresponse.
    rewrite Hpost, fetchGitHubTools_undefined.
    fold url. rewrite Hfetch; cbn [bind await]. rewrite Hok; cbn [negb].
    rewrite Hjson; cbn [bind await]. rewrite Hresponse; cbn [bind].
    split.
    + intros Hfalsy chunk Hchunk. rewrite Hfalsy; cbn [negb].
      unfold new_ReadableStream. rewrite Hchunk. reflexivity.
    + intros Htruthy out Hout. rewrite Htruthy; cbn [negb].
      rewrite Hout. reflexivity.
Qed.

End Properties.

(* ================================================================== *)
(** * The properties on the sample inputs *)
(* ================================================================== *)

(** ** The runtime model on examples *)

Example hello_bytes :
  utf8_encode (lit "hello") = [104; 101; 108; 108; 111]%N.
Proof. reflexivity. Qed.

(** U+1F600 is a surrogate pair in the string and four bytes in UTF-8;
    a lone surrogate is encoded as U+FFFD. *)
Example utf8_beyond_ascii :
  utf8_encode [0xD83D; 0xDE00; 0xE9; 0x20AC; 0xD800]%N
  = [0xF0; 0x9F; 0x98; 0x80; 0xC3; 0xA9; 0xE2; 0x82; 0xAC; 0xEF; 0xBF; 0xBD]%N.
Proof. reflexivity. Qed.

Example encodeURIComponent_reserved :
  encodeURIComponent (JStr (lit "a b&c/d?") : JsValue LiteralNumbers)
  = Return (lit "a%20b%26c%2Fd%3F").
Proof. reflexivity. Qed.

Example search_step_parses :
  JSON_parse LiteralNumbers (content search_step) = Return (JObj search_step_props).
Proof. reflexivity. Qed.

(** The input of the example, printed with two spaces of indentation:
    three lines. *)
Example search_input_printed :
  JSON_stringify search_input 2
  = JStr (lit "{" ++ [10%N] ++ json_text "  'q': 'x'" ++ [10%N] ++ lit "}").
Proof. reflexivity. Qed.

Example nested_value_printed :
  JSON_stringify
    (JObj [(lit "a", JArr [JNull; JBool true; JObj []]); (lit "b", JArr [])]
     : JsValue LiteralNumbers) 2
  = JStr (lit "{" ++ [10%N]
          ++ json_text "  'a': [" ++ [10%N]
          ++ lit "    null," ++ [10%N]
          ++ lit "    true," ++ [10%N]
          ++ lit "    {}" ++ [10%N]
          ++ lit "  ]," ++ [10%N]
          ++ json_text "  'b': []" ++ [10%N]
          ++ lit "}").
Proof. reflexivity. Qed.

(** A repeated key keeps its place and takes the later value; keys that
    are array indices come first, in ascending order. *)
Example parse_object_order :
  JSON_parse LiteralNumbers (json_text "{'b':1,'1':2,'a':3,'0':4,'b':5}")
  = Return (JObj [(lit "0", number "4"); (lit "1", number "2");
                  (lit "b", number "5"); (lit "a", number "3")]).
Proof. reflexivity. Qed.

Example parse_rejects :
  map (fun text =>
         match JSON_parse LiteralNumbers (json_text text) with
         | Return _ => true
         | Throw _ => false
         end)
      ["not json"; EmptyString; "[1,]"; "{'a':1,}"; "01"; "1."; "-"; "'abc"; "tru";
       "[1 2]"; "{'a' 1}"; "{a:1}"; "undefined"; "1 2"; "+1"; ".5"]%string
  = repeat false 16.
Proof. reflexivity. Qed.

Example parse_accepts :
  map (fun text =>
         match JSON_parse LiteralNumbers (json_text text) with
         | Return _ => true
         | Throw _ => false
         end)
      ["null"; " true "; "0"; "-0.5e+10"; "'a'"; "[]"; "{}"; "[[[]]]";
       "{'a':{'b':[1,2,{'c':null}]}}"]%string
  = repeat true 9.
Proof. reflexivity. Qed.

Lemma constant_toolkit_answers (userInput answer : JsValue LiteralNumbers) (query : JsString) :
  encodeURIComponent userInput = Return query ->
  toolkit_answers (constant_toolkit 200 answer) userInput answer.
Proof.
  intros Hquery. exists query. eexists.
  split; [exact Hquery | split; [reflexivity | split; reflexivity]].
Qed.

Lemma constant_toolkit_refuses (userInput answer : JsValue LiteralNumbers) (query : JsString) :
  encodeURIComponent userInput = Return query ->
  toolkit_refuses (constant_toolkit 404 answer) userInput 404.
Proof.
  intros Hquery. exists query. eexists.
  split; [exact Hquery | split; [reflexivity | split; reflexivity]].
Qed.

Lemma POST_streams_one_chunk_witness :
  exists stream rest,
    POST (constant_toolkit 200 hello_answer) (request_of plain_body) =
      Return {| response_status := 200;
                content_type := "text/plain; charset=utf-8";
                body := StreamBody stream |} /\
    read stream = (Chunk (utf8_encode (lit "hello")), rest) /\
    read rest = (Done, rest).
Proof.
  apply (@POST_streams_one_chunk LiteralNumbers
           (constant_toolkit 200 hello_answer) (request_of plain_body)
           plain_body (JBool false) hello_answer (lit "hi") (lit "hello"));
    try reflexivity.
  apply (@constant_toolkit_answers _ _ (lit "hi")). reflexivity.
Defined.

Lemma POST_returns_messages_witness :
  POST (constant_toolkit 200 output_answer) (request_of steps_body) =
    Return {| response_status := 200;
              content_type := "application/json";
              body := JsonBody
                        (JObj [(lit "messages",
                                JArr [JObj [(lit "content", JStr (lit "hi"));
                                            (lit "role", JStr (lit "assistant"))]])]) |}.
Proof.
  apply (@POST_returns_messages LiteralNumbers
           (constant_toolkit 200 output_answer) (request_of steps_body)
           steps_body (JStr (lit "hi")) (JBool true) output_answer
           (JObj [(lit "output", JStr (lit "hi"))]) (lit "hi"));
    try reflexivity.
  apply (@constant_toolkit_answers _ _ (lit "hi")). reflexivity.
Defined.

Lemma POST_toolkit_failure_is_500_witness :
  POST_try (constant_toolkit 404 hello_answer) (request_of plain_body)
    = Throw (Error "Failed to fetch GitHub Toolkit") /\
  status (Error "Failed to fetch GitHub Toolkit") = None /\
  POST (constant_toolkit 404 hello_answer) (request_of plain_body) =
    Return {| response_status := 500;
              content_type := "application/json";
              body := JsonBody
                        (JObj [(lit "error",
                                JStr (lit "Failed to fetch GitHub Toolkit"))]) |}.
Proof.
  apply (@POST_toolkit_failure_is_500 LiteralNumbers
           (constant_toolkit 404 hello_answer) (request_of plain_body)
           plain_body (JStr (lit "hi")) 404);
    try reflexivity.
  apply (@constant_toolkit_refuses _ _ (lit "hi")). reflexivity.
Defined.

Lemma constant_toolkit_native (st : Z) (answer : JsValue LiteralNumbers) :
  native_network (constant_toolkit st answer).
Proof.
  intros url. split; [exact I | ].
  intros r H. injection H as <-. exact I.
Qed.



(** A null body status is refused as well, and an error of status 200
    is answered 200 with the error body. *)
Example POST_status_204_propagates :
  POST failing_network
    (rejecting_request
       {| err_name := lit "Error"; message := lit "No Content"; status := Some 204%Z |})
  = Throw (TypeError "Response constructor: Invalid response status code").
Proof. reflexivity. Qed.

Example POST_status_200_error :
  POST failing_network
    (rejecting_request
       {| err_name := lit "Error"; message := lit "odd"; status := Some 200%Z |})
  = Return {| response_status := 200;
              content_type := "application/json";
              body := JsonBody (JObj [(lit "error", JStr (lit "odd"))]) |}.
Proof. reflexivity. Qed.


Lemma IntermediateStep_renders_tool_data_witness :
  IntermediateStep LiteralNumbers search_step = (Some search_step_view, []) /\
  embedded search_step_view
    = [JStr (lit "search"); JSON_stringify search_input 2; JStr (lit "result")] /\
  (exists inputText, JSON_stringify search_input 2 = JStr inputText) /\
  (exists outputText, JStr (lit "result") = @JStr LiteralNumbers outputText).
Proof.
  apply (@IntermediateStep_renders_tool_data LiteralNumbers search_step
           search_step_props
           (JStr (lit "search")) search_input (JStr (lit "result")));
    reflexivity.
Defined.

Lemma IntermediateStep_invalid_json_witness :
  IntermediateStep LiteralNumbers {| role := lit "assistant"; content := lit "not json" |}
    = (None, [("Error parsing tool data:"%string, SyntaxError "Unexpected token in JSON")]).
Proof.
  apply (@IntermediateStep_invalid_json LiteralNumbers
           {| role := lit "assistant"; content := lit "not json" |}
           (SyntaxError "Unexpected token in JSON")).
  reflexivity.
Defined.

Lemma IntermediateStep_null_content_witness :
  exists toolData,
    JSON_parse LiteralNumbers (content search_step) = Return toolData.
Proof.
  apply (proj2 (proj2 (@IntermediateStep_null_content LiteralNumbers (lit "assistant")))
           search_step search_step_view []).
  reflexivity.
Defined.

Lemma convertLangChainMessageToVercelMessage_roles_witness :
  convertLangChainMessageToVercelMessage
    (ChatMessage (JStr (lit "be brief")) (lit "system") : BaseMessage LiteralNumbers)
  = JObj [(lit "content", JStr (lit "be brief")); (lit "role", JStr (lit "generic"))].
Proof.
  apply (proj1 (proj2 (proj2
           (@convertLangChainMessageToVercelMessage_roles LiteralNumbers
              (ChatMessage (JStr (lit "be brief")) (lit "system"))))));
    discriminate.
Defined.

Lemma POST_without_user_input_witness :
  POST (constant_toolkit 200 output_answer) (request_of steps_only_body)
  = Return {| response_status := 200;
              content_type := "application/json";
              body := JsonBody
                        (JObj [(lit "messages",
                                JArr [JObj [(lit "content", JStr (lit "hi"));
                                            (lit "role", JStr (lit "assistant"))]])]) |}.
Proof.
  destruct (@POST_without_user_input LiteralNumbers
              (constant_toolkit 200 output_answer) (request_of steps_only_body)
              steps_only_body (JBool true) eq_refl eq_refl eq_refl)
    as (_ & _ & _ & Hanswered).
  destruct (Hanswered {| fetch_status := 200; response_json := Fulfilled output_answer |}
              output_answer (JObj [(lit "output", JStr (lit "hi"))])
              eq_refl eq_refl eq_refl eq_refl)
    as [_ Hsteps].
  apply Hsteps; reflexivity.
Defined.

(** The toolkit answers 200 with the JSON body [{}] to a request for
    steps that has no [user_input]: reading [output] of the missing
    [response] throws, and the handler answers 500. *)
Lemma POST_without_user_input_500 :
  POST (constant_toolkit 200 (JObj [])) (request_of steps_only_body)
  = Return {| response_status := 500;
              content_type := "application/json";
              body := JsonBody
                        (JObj [(lit "error",
                                JStr (lit "Cannot read properties of undefined (reading 'output')"))]) |}.
Proof. reflexivity. Qed.

(** C10 as first stated does not hold: a successful toolkit call for a
    request without [user_input] does not always lead to a 200
    response. *)
Lemma POST_without_user_input_not_always_200 :
  ~ (forall (fetch : Fetch LiteralNumbers) (req : NextRequest LiteralNumbers)
            (r : FetchResponse LiteralNumbers) (body answer : JsValue LiteralNumbers),
        json req = Fulfilled body ->
        Get body p_user_input = Return JUndefined ->
        fetch (lit "http://127.0.0.1:8000/github-toolkit?user_input=undefined")
          = Fulfilled r ->
        ok r = true ->
        response_json r = Fulfilled answer ->
        exists resp, POST fetch req = Return resp /\ response_status resp = 200%Z).
Proof.
  intros claim.
  destruct (claim (constant_toolkit 200 (JObj [])) (request_of steps_only_body)
              {| fetch_status := 200; response_json := Fulfilled (JObj []) |}
              steps_only_body (JObj [])
              eq_refl eq_refl eq_refl eq_refl eq_refl)
    as (resp & Hpost & Hstatus).
  rewrite POST_without_user_input_500 in Hpost.
  injection Hpost as <-. discriminate Hstatus.
Qed.

(* ================================================================== *)
(** * Further properties: failures, edge cases and what never happens *)
(* ================================================================== *)

Section Coverage.

Variable num : NumberModel.

Local Abbreviation JsValue := (JsValue num).
Local Abbreviation Fetch := (Fetch num).
Local Abbreviation NextRequest := (NextRequest num).
Local Abbreviation BaseMessage := (BaseMessage num).
Local Abbreviation HttpResponse := (HttpResponse num).

(** The response the [catch] block builds for an error without a
    status. *)
Local Abbreviation error_response msg :=
  (Return {| response_status := 500;
             content_type := "application/json";
             body := JsonBody (JObj [(lit "error", @JStr num msg)]) |}).

(** ** Running POST *)

Lemma str_eqb_refl (a : JsString) : str_eqb a a = true.
Proof. induction a as [ | x a IH]; simpl; [ | rewrite N.eqb_refl, IH]; reflexivity. Qed.

Lemma str_eqb_neq (a b : JsString) : a <> b -> str_eqb a b = false.
Proof.
  intros Hab. destruct (str_eqb a b) eqn:E; [ | reflexivity].
  exfalso. apply Hab, str_eqb_eq, E.
Qed.

Lemma bind_Return_inv {A B : Type} (c : Completion A) (k : A -> Completion B) (b : B) :
  bind c k = Return b -> exists a, c = Return a /\ k a = Return b.
Proof.
  destruct c as [a | e]; simpl; intros H; [ | discriminate H].
  exists a. split; [reflexivity | exact H].
Qed.

Lemma POST_try_Return (fetch : Fetch) (req : NextRequest) (resp : HttpResponse) :
  POST_try fetch req = Return resp -> POST fetch req = Return resp.
Proof. intros H. unfold POST. rewrite H. reflexivity. Qed.

Lemma POST_try_Throw (fetch : Fetch) (req : NextRequest) (e : JsError) :
  status e = None ->
  POST_try fetch req = Throw e -> POST fetch req = error_response (message e).
Proof.
  intros Hstatus H. unfold POST. rewrite H. cbn [try_catch].
  apply POST_catch_native, Hstatus.
Qed.

(** A response of the [catch] block is a JSON error body. *)
Lemma POST_catch_Return_inv (e : JsError) (resp : HttpResponse) :
  POST_catch num e = Return resp ->
  resp = {| response_status := match status e with Some st => st | None => 500%Z end;
            content_type := "application/json";
            body := JsonBody (JObj [(lit "error", JStr (message e))]) |}.
Proof.
  unfold POST_catch, NextResponse_json. cbn [JSON_stringify SerializeJSONProperty].
  destruct ((200 <=? _)%Z && (_ <=? 599)%Z); [ | discriminate].
  destruct (null_body_status _); [discriminate | ].
  intros H. injection H as <-. reflexivity.
Qed.

(** What [new ReadableStream] gives in the handler: the stream holds
    the one encoded chunk and is closed. *)
Lemma POST_stream (responseContent : JsValue) (stream : ReadableStream) :
  new_ReadableStream
    (fun controller =>
       bind (TextEncoder_encode responseContent)
         (fun chunk => bind (controller_enqueue chunk controller) controller_close))
  = Return stream ->
  exists chunk,
    TextEncoder_encode responseContent = Return chunk /\
    stream = {| queue := [chunk]; closeRequested := true |}.
Proof.
  unfold new_ReadableStream. intros H.
  apply bind_Return_inv in H as (chunk & Hchunk & H).
  exists chunk. split; [exact Hchunk | ].
  cbn in H. injection H as <-. reflexivity.
Qed.

(** The ways the [try] block can return. *)
Lemma POST_try_Return_inv (fetch : Fetch) (req : NextRequest) (resp : HttpResponse) :
  POST_try fetch req = Return resp ->
  exists body userInput steps answer responseContent,
    json req = Fulfilled body /\
    Get body p_user_input = Return userInput /\
    Get body p_show_intermediate_steps = Return steps /\
    fetchGitHubTools fetch userInput = Return answer /\
    Get answer p_response = Return responseContent /\
    ((ToBoolean steps = false /\
      exists chunk,
        TextEncoder_encode responseContent = Return chunk /\
        resp = StreamingTextResponse num {| queue := [chunk]; closeRequested := true |})
     \/
     (ToBoolean steps = true /\
      exists out,
        Get responseContent p_output = Return out /\
        resp = {| response_status := 200;
                  content_type := "application/json";
                  body := JsonBody
                            (JObj [(lit "messages",
                                    JArr [JObj [(lit "content", out);
                                                (lit "role", JStr (lit "assistant"))]])]) |})).
Proof.
  unfold POST_try. intros H.
  apply bind_Return_inv in H as (body & Hbody & H).
  apply bind_Return_inv in H as (userInput & Hinput & H).
  apply bind_Return_inv in H as (steps & Hsteps & H).
  apply bind_Return_inv in H as (answer & Hanswer & H).
  apply bind_Return_inv in H as (responseContent & Hresponse & H).
  exists body, userInput, steps, answer, responseContent.
  destruct (json req) as [body' | name msg | e0] eqn:Hjson; try discriminate Hbody.
  cbn [await] in Hbody. injection Hbody as ->.
  repeat (split; [first [reflexivity | assumption] | ]).
  destruct (ToBoolean steps); cbn [negb] in H.
  - right. split; [reflexivity | ].
    apply bind_Return_inv in H as (out & Hout & H).
    exists out. split; [exact Hout | ].
    unfold NextResponse_json in H. cbn in H. injection H as <-. reflexivity.
  - left. split; [reflexivity | ].
    apply bind_Return_inv in H as (stream & Hstream & H).
    apply POST_stream in Hstream as (chunk & Hchunk & ->).
    exists chunk. split; [exact Hchunk | ]. injection H as <-. reflexivity.
Qed.

(** The first three steps of the [try] block, for a body that can be
    read. *)
Lemma POST_try_reads_body (fetch : Fetch) (req : NextRequest)
  (body userInput steps : JsValue) :
  json req = Fulfilled body ->
  Get body p_user_input = Return userInput ->
  Get body p_show_intermediate_steps = Return steps ->
  POST_try fetch req =
  bind (fetchGitHubTools fetch userInput)
    (fun toolsResponse =>
       bind (Get toolsResponse p_response)
         (fun responseContent =>
            if negb (ToBoolean steps) then
              bind (new_ReadableStream
                      (fun controller =>
                         bind (TextEncoder_encode responseContent)
                           (fun chunk =>
                              bind (controller_enqueue chunk controller)
                                controller_close)))
                (fun transformStream => Return (StreamingTextResponse num transformStream))
            else
              bind (Get responseContent p_output)
                (fun out =>
                   NextResponse_json
                     (JObj [(lit "messages",
                             JArr [JObj [(lit "content", out);
                                         (lit "role", JStr (lit "assistant"))]])])
                     200))).
Proof.
  intros Hbody Hinput Hsteps. unfold POST_try.
  rewrite Hbody; cbn [bind await]. rewrite Hinput; cbn [bind].
  rewrite Hsteps; cbn [bind]. reflexivity.
Qed.

(** ** POST: the shape of every response *)

(** X1. When no promise rejects with a status, a response of POST has
    status 200 or status 500, and a 500 response is a JSON body with the
    single field [error]. *)
Theorem POST_status_200_or_500
  (fetch : Fetch) (req : NextRequest) (resp : HttpResponse) :
  native_request req -> native_network fetch ->
  POST fetch req = Return resp ->
  response_status resp = 200%Z \/
  (response_status resp = 500%Z /\
   content_type resp = "application/json"%string /\
   exists msg, body resp = JsonBody (JObj [(lit "error", JStr msg)])).
Proof.
  intros Hrequest Hnetwork Hpost. unfold POST in Hpost.
  destruct (POST_try fetch req) as [resp' | e] eqn:Htry; cbn [try_catch] in Hpost.
  - injection Hpost as ->. left.
    apply POST_try_Return_inv in Htry
      as (? & ? & ? & ? & ? & ? & ? & ? & ? & ? & [(? & ? & ? & ->) | (? & ? & ? & ->)]);
      reflexivity.
  - right.
    rewrite (@POST_catch_native num e
               (@throws_native_POST_try num fetch req Hrequest Hnetwork e Htry)) in Hpost.
    injection Hpost as <-. repeat split. exists (message e). reflexivity.
Qed.

(** X2. A streaming response of POST always has status 200 and a stream
    that holds exactly one chunk and is already closed: nothing is
    streamed incrementally. *)
Theorem POST_stream_is_one_closed_chunk
  (fetch : Fetch) (req : NextRequest) (resp : HttpResponse) (stream : ReadableStream) :
  POST fetch req = Return resp ->
  body resp = StreamBody stream ->
  response_status resp = 200%Z /\
  exists chunk after,
    queue stream = [chunk] /\
    read stream = (Chunk chunk, after) /\
    read after = (Done, after).
Proof.
  intros Hpost Hbody. unfold POST in Hpost.
  destruct (POST_try fetch req) as [resp' | e] eqn:Htry; cbn [try_catch] in Hpost.
  - injection Hpost as ->.
    apply POST_try_Return_inv in Htry
      as (? & ? & ? & ? & ? & ? & ? & ? & ? & ? & [(? & chunk & ? & ->) | (? & ? & ? & ->)]);
      [ | discriminate Hbody].
    cbn in Hbody. injection Hbody as <-.
    split; [reflexivity | ]. exists chunk. eexists. repeat split.
  - apply POST_catch_Return_inv in Hpost. subst resp. discriminate Hbody.
Qed.

(** ** POST: failures before and during the toolkit call *)

(** X3. When the request body cannot be read as JSON, POST answers 500
    with the message of the rejection, whatever the network would have
    answered. *)
Theorem POST_unreadable_body
  (fetch : Fetch) (req : NextRequest) (name msg : JsString) :
  json req = Rejected name msg ->
  POST fetch req = error_response msg.
Proof.
  intros Hbody.
  apply (@POST_try_Throw fetch req {| err_name := name; message := msg; status := None |} eq_refl).
  unfold POST_try. rewrite Hbody. reflexivity.
Qed.

(** X4. The JSON body [null] is answered 500 with the TypeError of
    reading [user_input], whatever the network would have answered. *)
Theorem POST_null_body (fetch : Fetch) (req : NextRequest) :
  json req = Fulfilled JNull ->
  POST fetch req
  = error_response (lit "Cannot read properties of null (reading 'user_input')").
Proof.
  intros Hbody.
  apply (@POST_try_Throw fetch req
           (TypeError "Cannot read properties of null (reading 'user_input')") eq_refl).
  unfold POST_try. rewrite Hbody. reflexivity.
Qed.

(** X5. When the GET of the toolkit URL fails (the promise of [fetch]
    rejects), POST answers 500 with the message of the rejection. *)
Theorem POST_network_failure
  (fetch : Fetch) (req : NextRequest) (body userInput : JsValue)
  (query name msg : JsString) :
  json req = Fulfilled body ->
  Get body p_user_input = Return userInput ->
  encodeURIComponent userInput = Return query ->
  fetch (lit toolkit_url ++ query) = Rejected name msg ->
  POST fetch req = error_response msg.
Proof.
  intros Hbody Hinput Hquery Hfetch.
  destruct (@Get_again num body userInput p_user_input p_show_intermediate_steps Hinput)
    as [steps Hsteps].
  apply (@POST_try_Throw fetch req {| err_name := name; message := msg; status := None |} eq_refl).
  rewrite (POST_try_reads_body fetch req Hbody Hinput Hsteps).
  unfold fetchGitHubTools. rewrite Hquery; cbn [bind]. rewrite Hfetch. reflexivity.
Qed.

(** X6. When the toolkit answers with a success status but its body is
    not JSON ([response.json()] rejects), POST answers 500 with the
    message of the rejection. *)
Theorem POST_toolkit_body_not_json
  (fetch : Fetch) (req : NextRequest) (body userInput : JsValue)
  (query name msg : JsString) (r : FetchResponse num) :
  json req = Fulfilled body ->
  Get body p_user_input = Return userInput ->
  encodeURIComponent userInput = Return query ->
  fetch (lit toolkit_url ++ query) = Fulfilled r ->
  ok r = true ->
  response_json r = Rejected name msg ->
  POST fetch req = error_response msg.
Proof.
  intros Hbody Hinput Hquery Hfetch Hok Hjson.
  destruct (@Get_again num body userInput p_user_input p_show_intermediate_steps Hinput)
    as [steps Hsteps].
  apply (@POST_try_Throw fetch req {| err_name := name; message := msg; status := None |} eq_refl).
  rewrite (POST_try_reads_body fetch req Hbody Hinput Hsteps).
  unfold fetchGitHubTools. rewrite Hquery; cbn [bind]. rewrite Hfetch; cbn [bind await].
  rewrite Hok; cbn [negb]. rewrite Hjson. reflexivity.
Qed.

(** X7. POST consults the network at one URL at most, the toolkit URL
    for [body.user_input]: two networks that agree there get the same
    response.  When no such URL exists (the body cannot be read, or
    the query cannot be encoded) the network plays no part. *)
Theorem POST_single_request (fetch1 fetch2 : Fetch) (req : NextRequest) :
  (forall body userInput query,
      json req = Fulfilled body ->
      Get body p_user_input = Return userInput ->
      encodeURIComponent userInput = Return query ->
      fetch1 (lit toolkit_url ++ query) = fetch2 (lit toolkit_url ++ query)) ->
  POST fetch1 req = POST fetch2 req.
Proof.
  intros Hagree. unfold POST. f_equal. unfold POST_try.
  destruct (json req) as [body | name msg | e0];
    [cbn [bind await] | reflexivity | reflexivity].
  destruct (Get body p_user_input) as [userInput | e] eqn:Hinput;
    [cbn [bind] | reflexivity].
  destruct (Get body p_show_intermediate_steps) as [steps | e];
    [cbn [bind] | reflexivity].
  f_equal. unfold fetchGitHubTools.
  destruct (encodeURIComponent userInput) as [query | e] eqn:Hquery;
    [cbn [bind] | reflexivity].
  rewrite (Hagree body userInput query eq_refl Hinput Hquery). reflexivity.
Qed.

(** ** The query string *)

Lemma uri_encode_unpaired (ps : list CodePoint) :
  existsb (fun p => match p with Unpaired _ => true | Scalar _ => false end) ps = true ->
  uri_encode ps = Throw (URIError "URI malformed").
Proof.
  induction ps as [ | [cp | cu] ps IH]; simpl; intros H.
  - discriminate H.
  - rewrite (IH H). reflexivity.
  - reflexivity.
Qed.

Lemma hex_upper_unreserved (d : N) : (d < 16)%N -> uri_unreserved (hex_upper d) = true.
Proof.
  intros Hd. unfold uri_unreserved, hex_upper, is_digit, in_range.
  destruct (N.ltb_spec d 10).
  - replace ((48 <=? 48 + d)%N && (48 + d <=? 57)%N) with true;
      [rewrite !orb_true_r; reflexivity | ].
    symmetry. apply andb_true_intro. split; apply N.leb_le; lia.
  - replace ((65 <=? 55 + d)%N && (55 + d <=? 90)%N) with true; [reflexivity | ].
    symmetry. apply andb_true_intro. split; apply N.leb_le; lia.
Qed.

Lemma percent_encode_safe (bytes : Uint8Array) :
  Forall (fun b => b < 256)%N bytes ->
  forallb uri_safe (flat_map percent_encode bytes) = true.
Proof.
  induction 1 as [ | b bytes Hb _ IH]; [reflexivity | ].
  cbn [flat_map percent_encode app forallb]. rewrite IH.
  unfold uri_safe at 2 3.
  rewrite !hex_upper_unreserved; [reflexivity | | ].
  - change 15%N with (N.ones 4). rewrite N.land_ones.
    pose proof (N.mod_lt b (2 ^ 4)%N). lia.
  - apply shiftr_bound. simpl. lia.
Qed.

Lemma uri_encode_safe (ps : list CodePoint) (q : JsString) :
  Forall code_point_bounded ps ->
  uri_encode ps = Return q ->
  forallb uri_safe q = true.
Proof.
  intros Hps. revert q. induction Hps as [ | p ps Hp _ IH]; intros q; simpl.
  - intros H. injection H as <-. reflexivity.
  - destruct p as [cp | cu]; [ | discriminate].
    intros H. apply bind_Return_inv in H as (tail & Htail & H).
    injection H as <-. rewrite forallb_app, (IH tail Htail), andb_true_r.
    destruct (uri_unreserved cp) eqn:Hcp.
    + simpl. unfold uri_safe. rewrite Hcp. reflexivity.
    + apply percent_encode_safe, utf8_encode_code_point_bytes.
      simpl in Hp. lia.
Qed.

(** X8. A [user_input] string with an unpaired surrogate cannot be
    encoded: POST answers 500 with the message of the URIError and the
    toolkit is not called (the response is the same for every
    network). *)
Theorem POST_unpaired_surrogate
  (fetch : Fetch) (req : NextRequest) (body : JsValue) (u : JsString) :
  json req = Fulfilled body ->
  Get body p_user_input = Return (JStr u) ->
  has_unpaired u = true ->
  POST fetch req = error_response (lit "URI malformed").
Proof.
  intros Hbody Hinput Hu.
  destruct (@Get_again num body (JStr u) p_user_input p_show_intermediate_steps Hinput)
    as [steps Hsteps].
  apply (@POST_try_Throw fetch req (URIError "URI malformed") eq_refl).
  rewrite (POST_try_reads_body fetch req Hbody Hinput Hsteps).
  unfold fetchGitHubTools, encodeURIComponent. cbn [ToString bind].
  rewrite (uri_encode_unpaired _ Hu). reflexivity.
Qed.

(** X9. For a string input, fetchGitHubTools requests no URL but the
    fixed prefix followed by unreserved characters and percent signs:
    two networks that agree on all such URLs give the same result.  The
    input cannot add a parameter, a fragment or a path to the request. *)
Theorem fetchGitHubTools_requests_safe_url (fetch1 fetch2 : Fetch) (u : JsString) :
  Forall (fun c => c < 65536)%N u ->
  (forall query,
      forallb uri_safe query = true ->
      fetch1 (lit toolkit_url ++ query) = fetch2 (lit toolkit_url ++ query)) ->
  fetchGitHubTools fetch1 (JStr u) = fetchGitHubTools fetch2 (JStr u).
Proof.
  intros Hu Hagree. unfold fetchGitHubTools.
  destruct (encodeURIComponent (@JStr num u)) as [query | e] eqn:Hquery;
    [cbn [bind] | reflexivity].
  rewrite Hagree; [reflexivity | ].
  unfold encodeURIComponent in Hquery. cbn [ToString bind] in Hquery.
  apply (uri_encode_safe (code_points_bounded Hu) Hquery).
Qed.

(** ** POST: answers of an unexpected shape *)

(** X10. When no steps are asked for and the answer of the toolkit has
    no [response] field, POST still answers 200: the stream carries one
    empty chunk. *)
Theorem POST_missing_response_streams_empty
  (fetch : Fetch) (req : NextRequest) (body userInput steps answer : JsValue) :
  json req = Fulfilled body ->
  Get body p_user_input = Return userInput ->
  Get body p_show_intermediate_steps = Return steps ->
  ToBoolean steps = false ->
  toolkit_answers fetch userInput answer ->
  Get answer p_response = Return JUndefined ->
  POST fetch req
  = Return (StreamingTextResponse num {| queue := [[]]; closeRequested := true |}).
Proof.
  intros Hbody Hinput Hsteps Hfalsy Hcall Hresponse.
  apply POST_try_Return.
  rewrite (POST_try_reads_body fetch req Hbody Hinput Hsteps).
  rewrite (fetchGitHubTools_answers Hcall); cbn [bind].
  rewrite Hresponse; cbn [bind]. rewrite Hfalsy. reflexivity.
Qed.

(** X11. When steps are asked for and the [response] of the toolkit has
    no [output] (it is a string, say), POST answers 200 with a message
    whose [content] is undefined; on the wire the message has no
    [content] at all. *)
Theorem POST_steps_without_output
  (fetch : Fetch) (req : NextRequest)
  (payload userInput steps answer responseContent : JsValue) :
  json req = Fulfilled payload ->
  Get payload p_user_input = Return userInput ->
  Get payload p_show_intermediate_steps = Return steps ->
  ToBoolean steps = true ->
  toolkit_answers fetch userInput answer ->
  Get answer p_response = Return responseContent ->
  Get responseContent p_output = Return JUndefined ->
  exists resp,
    POST fetch req = Return resp /\
    response_status resp = 200%Z /\
    body resp = JsonBody
                  (JObj [(lit "messages",
                          JArr [JObj [(lit "content", JUndefined);
                                      (lit "role", JStr (lit "assistant"))]])]) /\
    body_text resp = JStr (json_text "{'messages':[{'role':'assistant'}]}").
Proof.
  intros Hbody Hinput Hsteps Htruthy Hcall Hresponse Houtput.
  eexists. split; [ | split; [ | split]].
  - apply POST_try_Return.
    rewrite (POST_try_reads_body fetch req Hbody Hinput Hsteps).
    rewrite (fetchGitHubTools_answers Hcall); cbn [bind].
    rewrite Hresponse; cbn [bind]. rewrite Htruthy; cbn [negb].
    rewrite Houtput; cbn [bind]. reflexivity.
  - reflexivity.
  - reflexivity.
  - reflexivity.
Qed.

(** X12. When steps are asked for and the [response] of the toolkit is
    null or missing, reading its [output] throws: POST answers 500 with
    the message of the TypeError. *)
Theorem POST_steps_nullish_response
  (fetch : Fetch) (req : NextRequest)
  (body userInput steps answer responseContent : JsValue) :
  json req = Fulfilled body ->
  Get body p_user_input = Return userInput ->
  Get body p_show_intermediate_steps = Return steps ->
  ToBoolean steps = true ->
  toolkit_answers fetch userInput answer ->
  Get answer p_response = Return responseContent ->
  responseContent = JNull \/ responseContent = JUndefined ->
  POST fetch req
  = error_response
      (lit ("Cannot read properties of " ++ type_name responseContent
            ++ " (reading 'output')")).
Proof.
  intros Hbody Hinput Hsteps Htruthy Hcall Hresponse Hnullish.
  apply (@POST_try_Throw fetch req
           (TypeError ("Cannot read properties of " ++ type_name responseContent
                       ++ " (reading 'output')")) eq_refl).
  rewrite (POST_try_reads_body fetch req Hbody Hinput Hsteps).
  rewrite (fetchGitHubTools_answers Hcall); cbn [bind].
  rewrite Hresponse; cbn [bind]. rewrite Htruthy; cbn [negb].
  destruct Hnullish as [-> | ->]; reflexivity.
Qed.

(** X13. When the toolkit answers with the JSON body [null], POST
    answers 500 with the TypeError of reading [response], whether steps
    are asked for or not. *)
Theorem POST_toolkit_answers_null
  (fetch : Fetch) (req : NextRequest) (body userInput : JsValue) :
  json req = Fulfilled body ->
  Get body p_user_input = Return userInput ->
  toolkit_answers fetch userInput JNull ->
  POST fetch req
  = error_response (lit "Cannot read properties of null (reading 'response')").
Proof.
  intros Hbody Hinput Hcall.
  destruct (@Get_again num body userInput p_user_input p_show_intermediate_steps Hinput)
    as [steps Hsteps].
  apply (@POST_try_Throw fetch req
           (TypeError "Cannot read properties of null (reading 'response')") eq_refl).
  rewrite (POST_try_reads_body fetch req Hbody Hinput Hsteps).
  rewrite (fetchGitHubTools_answers Hcall). reflexivity.
Qed.

(** X14. When no steps are asked for and the [response] of the toolkit
    is a plain object (the shape of the other branch), the stream
    carries the text [[object Object]], not the output. *)
Theorem POST_streams_object_as_text
  (fetch : Fetch) (req : NextRequest) (body userInput steps answer : JsValue)
  (props : list (JsString * JsValue)) :
  json req = Fulfilled body ->
  Get body p_user_input = Return userInput ->
  Get body p_show_intermediate_steps = Return steps ->
  ToBoolean steps = false ->
  toolkit_answers fetch userInput answer ->
  Get answer p_response = Return (JObj props) ->
  has_own props (lit "toString") = false ->
  POST fetch req
  = Return (StreamingTextResponse num
              {| queue := [lit "[object Object]"]; closeRequested := true |}).
Proof.
  intros Hbody Hinput Hsteps Hfalsy Hcall Hresponse Hplain.
  apply POST_try_Return.
  rewrite (POST_try_reads_body fetch req Hbody Hinput Hsteps).
  rewrite (fetchGitHubTools_answers Hcall); cbn [bind].
  rewrite Hresponse; cbn [bind]. rewrite Hfalsy; cbn [negb].
  unfold new_ReadableStream, TextEncoder_encode. cbn [ToString].
  rewrite Hplain. reflexivity.
Qed.

(** X22. Which of the two 200 responses POST gives is decided by the
    truthiness of [show_intermediate_steps], not by its being [true]:
    any truthy value (the string [false] too) selects the JSON
    response, any falsy value the stream.  (No promise rejects with a
    status: an error of status 200 would make the third kind of 200
    response.) *)
Theorem POST_branch_by_truthiness
  (fetch : Fetch) (req : NextRequest) (payload steps : JsValue) (resp : HttpResponse) :
  native_request req -> native_network fetch ->
  json req = Fulfilled payload ->
  Get payload p_show_intermediate_steps = Return steps ->
  POST fetch req = Return resp ->
  response_status resp = 200%Z ->
  (ToBoolean steps = true -> exists data, body resp = JsonBody data) /\
  (ToBoolean steps = false -> exists stream, body resp = StreamBody stream).
Proof.
  intros Hrequest Hnetwork Hbody Hsteps Hpost Hstatus. unfold POST in Hpost.
  destruct (POST_try fetch req) as [resp' | e] eqn:Htry; cbn [try_catch] in Hpost.
  - injection Hpost as ->.
    apply POST_try_Return_inv in Htry
      as (payload' & ? & steps' & ? & ? & Hbody' & ? & Hsteps' & ? & ? & Hbranch).
    rewrite Hbody in Hbody'. injection Hbody' as <-.
    rewrite Hsteps in Hsteps'. injection Hsteps' as <-.
    destruct Hbranch as [(Hfalsy & ? & ? & ->) | (Htruthy & ? & ? & ->)];
      split; intros Hflag;
      first [ rewrite Hflag in Hfalsy; discriminate Hfalsy
            | rewrite Hflag in Htruthy; discriminate Htruthy
            | eexists; reflexivity ].
  - rewrite (@POST_catch_native num e
               (@throws_native_POST_try num fetch req Hrequest Hnetwork e Htry)) in Hpost.
    injection Hpost as <-. discriminate Hstatus.
Qed.

(** X23. When steps are asked for, the [content] of the message POST
    returns is [response.output] as it is, whatever its type: it is not
    converted to a string. *)
Theorem POST_passes_output_through
  (fetch : Fetch) (req : NextRequest)
  (payload userInput steps answer responseContent out : JsValue) :
  json req = Fulfilled payload ->
  Get payload p_user_input = Return userInput ->
  Get payload p_show_intermediate_steps = Return steps ->
  ToBoolean steps = true ->
  toolkit_answers fetch userInput answer ->
  Get answer p_response = Return responseContent ->
  Get responseContent p_output = Return out ->
  POST fetch req =
    Return {| response_status := 200;
              content_type := "application/json";
              body := JsonBody
                        (JObj [(lit "messages",
                                JArr [JObj [(lit "content", out);
                                            (lit "role", JStr (lit "assistant"))]])]) |}.
Proof.
  intros Hbody Hinput Hsteps Htruthy Hcall Hresponse Houtput.
  apply POST_try_Return.
  rewrite (POST_try_reads_body fetch req Hbody Hinput Hsteps).
  rewrite (fetchGitHubTools_answers Hcall); cbn [bind].
  rewrite Hresponse; cbn [bind]. rewrite Htruthy; cbn [negb].
  rewrite Houtput; cbn [bind]. reflexivity.
Qed.

(** ** The message converters *)

(** X15. convertVercelMessageToLangChainMessage makes a human message
    of the role [user], an ai message (without tool calls) of the role
    [assistant], and of any other role, [system] included, a chat
    message of type [generic] that keeps the role; the content is kept
    as it is. *)
Theorem convertVercelMessageToLangChainMessage_classes (m : VercelChatMessage) :
  (role m = lit "user" ->
   convertVercelMessageToLangChainMessage num m = HumanMessage (JStr (content m))) /\
  (role m = lit "assistant" ->
   convertVercelMessageToLangChainMessage num m = AIMessage (JStr (content m))) /\
  (role m <> lit "user" -> role m <> lit "assistant" ->
   convertVercelMessageToLangChainMessage num m
     = ChatMessage (JStr (content m)) (role m) /\
   getType (convertVercelMessageToLangChainMessage num m) = lit "generic") /\
  message_content (convertVercelMessageToLangChainMessage num m) = JStr (content m).
Proof.
  unfold convertVercelMessageToLangChainMessage.
  split; [ | split; [ | split]].
  - intros ->. reflexivity.
  - intros ->. reflexivity.
  - intros Huser Hassistant.
    rewrite (str_eqb_neq Huser), (str_eqb_neq Hassistant). split; reflexivity.
  - destruct (str_eqb (role m) (lit "user")); [reflexivity | ].
    destruct (str_eqb (role m) (lit "assistant")); reflexivity.
Qed.

(** X16. Converting a chat message to a structured message and back
    keeps its content.  It keeps its role only when the role is [user],
    [assistant] or [generic] (every other role comes back as
    [generic]), and it adds a [tool_calls] property exactly to
    assistant messages. *)
Theorem vercel_round_trip (m : VercelChatMessage) :
  exists props,
    convertLangChainMessageToVercelMessage
      (convertVercelMessageToLangChainMessage num m) = JObj props /\
    own_property props (lit "content") = Some (JStr (content m)) /\
    (own_property props (lit "role") = Some (JStr (role m)) <->
     role m = lit "user" \/ role m = lit "assistant" \/ role m = lit "generic") /\
    (has_own props (lit "tool_calls") = true <-> role m = lit "assistant").
Proof.
  destruct m as [r c].
  unfold convertVercelMessageToLangChainMessage. cbn [role content].
  destruct (str_eqb r (lit "user")) eqn:Euser.
  { apply str_eqb_eq in Euser. subst r. eexists. split; [reflexivity | ].
    split; [reflexivity | ]. split; split; intros H;
      first [reflexivity | discriminate H | left; reflexivity
            | destruct H as [H | [H | H]]; discriminate H ]. }
  destruct (str_eqb r (lit "assistant")) eqn:Eassistant.
  { apply str_eqb_eq in Eassistant. subst r. eexists. split; [reflexivity | ].
    split; [reflexivity | ]. split; split; intros H;
      first [reflexivity | right; left; reflexivity ]. }
  eexists. split; [reflexivity | ]. split; [reflexivity | ]. split; split.
  - intros H. cbn in H. injection H as <-. right; right; reflexivity.
  - intros [-> | [-> | ->]]; first [discriminate Euser | discriminate Eassistant | reflexivity].
  - intros H. discriminate H.
  - intros ->. discriminate Eassistant.
Qed.

(** X17. Converting a structured message with a string content to a
    chat message and back gives a human message for a human message; an
    ai message without its tool calls for an ai message; and for any
    other type ([system], [tool], ...) a chat message of type [generic]
    with the old type as its role. *)
Theorem structured_round_trip (m : BaseMessage) (c : JsString) :
  message_content m = JStr c ->
  exists v,
    as_vercel_message (convertLangChainMessageToVercelMessage m) = Some v /\
    (getType m = lit "human" ->
     convertVercelMessageToLangChainMessage num v = HumanMessage (JStr c)) /\
    (getType m = lit "ai" ->
     convertVercelMessageToLangChainMessage num v = AIMessage (JStr c) /\
     message_tool_calls (convertVercelMessageToLangChainMessage num v) = JArr []) /\
    (getType m <> lit "human" -> getType m <> lit "ai" ->
     getType m <> lit "user" -> getType m <> lit "assistant" ->
     convertVercelMessageToLangChainMessage num v = ChatMessage (JStr c) (getType m) /\
     getType (convertVercelMessageToLangChainMessage num v) = lit "generic").
Proof.
  intros Hc. unfold convertLangChainMessageToVercelMessage. rewrite Hc.
  destruct (str_eqb (getType m) (lit "human")) eqn:Ehuman.
  { apply str_eqb_eq in Ehuman. eexists. split; [reflexivity | ].
    split; [reflexivity | split].
    - intros H. rewrite H in Ehuman. discriminate Ehuman.
    - intros H. contradiction. }
  destruct (str_eqb (getType m) (lit "ai")) eqn:Eai.
  { apply str_eqb_eq in Eai. eexists. split; [reflexivity | ].
    split; [ | split].
    - intros H. rewrite H in Ehuman. discriminate Ehuman.
    - intros _. split; reflexivity.
    - intros _ H. contradiction. }
  eexists. split; [reflexivity | ]. split; [ | split].
  - intros H. rewrite H in Ehuman. discriminate Ehuman.
  - intros H. rewrite H in Eai. discriminate Eai.
  - intros _ _ Huser Hassistant.
    unfold convertVercelMessageToLangChainMessage. cbn [role content].
    rewrite (str_eqb_neq Huser), (str_eqb_neq Hassistant). split; reflexivity.
Qed.

(** ** IntermediateStep *)

Lemma IntermediateStep_try_view (message : VercelChatMessage) (toolData : JsValue) :
  JSON_parse num (content message) = Return toolData ->
  toolData <> JNull ->
  exists tool_name tool_input tool_output,
    Get toolData p_tool_name = Return tool_name /\
    Get toolData p_tool_input = Return tool_input /\
    Get toolData p_tool_output = Return tool_output /\
    IntermediateStep_try num message
    = Return (tool_step_view tool_name (JSON_stringify tool_input 2)
                (if is_string tool_output then tool_output
                 else JSON_stringify tool_output 2)).
Proof.
  intros Hparse Hnull. pose proof (JSON_parse_is_json _ Hparse) as Hjson.
  assert (Hget : forall p, exists x, Get toolData p = Return x).
  { intros p. destruct toolData; try (eexists; reflexivity);
      [discriminate Hjson | contradiction]. }
  destruct (Hget p_tool_name) as [tool_name Hname].
  destruct (Hget p_tool_input) as [tool_input Hinput].
  destruct (Hget p_tool_output) as [tool_output Houtput].
  exists tool_name, tool_input, tool_output.
  repeat (split; [assumption | ]).
  unfold IntermediateStep_try. rewrite Hparse; cbn [bind].
  rewrite Hname; cbn [bind]. rewrite Hinput; cbn [bind]. rewrite Houtput; cbn [bind].
  destruct (is_string tool_output); reflexivity.
Qed.

(** X18. IntermediateStep returns an element exactly when the content
    is valid JSON other than [null], and then logs nothing; otherwise
    it returns null and logs one entry: the SyntaxError of the parse,
    or for [null] the TypeError of reading [tool_name]. *)
Theorem IntermediateStep_outcome (message : VercelChatMessage) :
  match IntermediateStep num message with
  | (Some _, log) =>
      log = [] /\
      exists toolData,
        JSON_parse num (content message) = Return toolData /\ toolData <> JNull
  | (None, log) =>
      exists e,
        log = [("Error parsing tool data:"%string, e)] /\
        (JSON_parse num (content message) = Throw e \/
         (JSON_parse num (content message) = Return JNull /\
          e = TypeError "Cannot read properties of null (reading 'tool_name')"))
  end.
Proof.
  unfold IntermediateStep.
  destruct (JSON_parse num (content message)) as [toolData | e] eqn:Hparse.
  - assert (Hcases : toolData = JNull \/ toolData <> JNull)
      by (destruct toolData; first [left; reflexivity | right; discriminate]).
    destruct Hcases as [-> | Hnull].
    + unfold IntermediateStep_try. rewrite Hparse. cbn.
      eexists. split; [reflexivity | right; split; reflexivity].
    + destruct (IntermediateStep_try_view message Hparse Hnull)
        as (? & ? & ? & _ & _ & _ & ->).
      split; [reflexivity | ]. exists toolData. split; [reflexivity | exact Hnull].
  - unfold IntermediateStep_try. rewrite Hparse. cbn [bind].
    exists e. split; [reflexivity | left; reflexivity].
Qed.

(** X19. Content that is valid JSON but a boolean, a number, a string
    or an array has none of the three fields: IntermediateStep returns
    the element with three undefined values and logs nothing. *)
Theorem IntermediateStep_non_object (message : VercelChatMessage) (toolData : JsValue) :
  JSON_parse num (content message) = Return toolData ->
  match toolData with
  | JBool _ | JNum _ | JStr _ | JArr _ => True
  | _ => False
  end ->
  IntermediateStep num message
  = (Some (tool_step_view JUndefined JUndefined JUndefined), []).
Proof.
  intros Hparse Hshape. unfold IntermediateStep, IntermediateStep_try.
  rewrite Hparse. destruct toolData; try contradiction; reflexivity.
Qed.

(** X20. For content that parses to an object, a missing field does
    not make IntermediateStep fail: the element is returned, nothing is
    logged, and the place of each missing field holds undefined (for
    [tool_input] and [tool_output], a Code block without text). *)
Theorem IntermediateStep_missing_fields
  (message : VercelChatMessage) (props : list (JsString * JsValue)) :
  JSON_parse num (content message) = Return (JObj props) ->
  exists view,
    IntermediateStep num message = (Some view, []) /\
    (has_own props (lit "tool_name") = false ->
     nth 0 (embedded view) JNull = JUndefined) /\
    (has_own props (lit "tool_input") = false ->
     nth 1 (embedded view) JNull = JUndefined) /\
    (has_own props (lit "tool_output") = false ->
     nth 2 (embedded view) JNull = JUndefined).
Proof.
  intros Hparse.
  assert (Hnull : JObj props <> @JNull num) by discriminate.
  destruct (IntermediateStep_try_view message Hparse Hnull)
    as (tool_name & tool_input & tool_output & Hname & Hinput & Houtput & Htry).
  unfold IntermediateStep. rewrite Htry. eexists. split; [reflexivity | ].
  cbn [embedded tool_step_view flat_map app nth].
  split; [ | split]; intros Hmissing.
  - rewrite (@Get_missing num props p_tool_name Hmissing) in Hname.
    injection Hname as <-. reflexivity.
  - rewrite (@Get_missing num props p_tool_input Hmissing) in Hinput.
    injection Hinput as <-. reflexivity.
  - rewrite (@Get_missing num props p_tool_output Hmissing) in Houtput.
    injection Houtput as <-. reflexivity.
Qed.

(** X21. Rendering the Code components of the element IntermediateStep
    returns changes none of the values shown: the expanded tree shows
    the same three values in the same order, whatever [cn] does with
    the class names. *)
Theorem IntermediateStep_expanded
  (cn : string -> string -> string) (message : VercelChatMessage)
  (view : ReactNode num) (log : list ConsoleEntry) :
  IntermediateStep num message = (Some view, log) ->
  embedded (expand cn view) = embedded view /\
  List.length (embedded (expand cn view)) = 3.
Proof.
  intros H. rewrite embedded_expand. split; [reflexivity | ].
  unfold IntermediateStep in H.
  destruct (IntermediateStep_try num message) as [view' | e] eqn:Htry;
    [ | discriminate H].
  injection H as -> _. unfold IntermediateStep_try in Htry.
  apply bind_Return_inv in Htry as (toolData & _ & Htry).
  apply bind_Return_inv in Htry as (tool_name & _ & Htry).
  apply bind_Return_inv in Htry as (tool_input & _ & Htry).
  apply bind_Return_inv in Htry as (tool_output & _ & Htry).
  apply bind_Return_inv in Htry as (outputText & _ & Htry).
  injection Htry as <-. reflexivity.
Qed.

End Coverage.

(* ================================================================== *)
(** * The further properties on the sample inputs *)
(* ================================================================== *)

Lemma POST_stream_is_one_closed_chunk_witness :
  response_status
    (StreamingTextResponse LiteralNumbers
       {| queue := [lit "hello"]; closeRequested := true |}) = 200%Z /\
  exists chunk after,
    queue {| queue := [lit "hello"]; closeRequested := true |} = [chunk] /\
    read {| queue := [lit "hello"]; closeRequested := true |} = (Chunk chunk, after) /\
    read after = (Done, after).
Proof.
  apply (@POST_stream_is_one_closed_chunk LiteralNumbers
           (constant_toolkit 200 hello_answer) (request_of plain_body)
           (StreamingTextResponse LiteralNumbers
              {| queue := [lit "hello"]; closeRequested := true |})
           {| queue := [lit "hello"]; closeRequested := true |});
    reflexivity.
Defined.

Lemma POST_unreadable_body_witness :
  POST failing_network
       {| json := Rejected (lit "SyntaxError") (lit "Unexpected end of JSON input") |}
  = Return {| response_status := 500;
              content_type := "application/json";
              body := JsonBody
                        (JObj [(lit "error",
                                JStr (lit "Unexpected end of JSON input"))]) |}.
Proof.
  apply (@POST_unreadable_body LiteralNumbers failing_network
           {| json := Rejected (lit "SyntaxError") (lit "Unexpected end of JSON input") |}
           (lit "SyntaxError") (lit "Unexpected end of JSON input")).
  reflexivity.
Defined.

Lemma POST_null_body_witness :
  POST (constant_toolkit 200 hello_answer) (request_of JNull)
  = Return {| response_status := 500;
              content_type := "application/json";
              body := JsonBody
                        (JObj [(lit "error",
                                JStr (lit "Cannot read properties of null (reading 'user_input')"))]) |}.
Proof.
  apply (@POST_null_body LiteralNumbers
           (constant_toolkit 200 hello_answer) (request_of JNull)).
  reflexivity.
Defined.

Lemma POST_network_failure_witness :
  POST failing_network (request_of plain_body)
  = Return {| response_status := 500;
              content_type := "application/json";
              body := JsonBody (JObj [(lit "error", JStr (lit "fetch failed"))]) |}.
Proof.
  apply (@POST_network_failure LiteralNumbers failing_network (request_of plain_body)
           plain_body (JStr (lit "hi")) (lit "hi") (lit "TypeError") (lit "fetch failed"));
    reflexivity.
Defined.

Lemma POST_toolkit_body_not_json_witness :
  POST html_toolkit (request_of plain_body)
  = Return {| response_status := 500;
              content_type := "application/json";
              body := JsonBody
                        (JObj [(lit "error", JStr (lit "Unexpected token '<'"))]) |}.
Proof.
  apply (@POST_toolkit_body_not_json LiteralNumbers html_toolkit (request_of plain_body)
           plain_body (JStr (lit "hi")) (lit "hi")
           (lit "SyntaxError") (lit "Unexpected token '<'")
           {| fetch_status := 200;
              response_json :=
                Rejected (lit "SyntaxError") (lit "Unexpected token '<'") |});
    reflexivity.
Defined.

Lemma POST_single_request_witness :
  POST (constant_toolkit 200 hello_answer) (request_of plain_body)
  = POST (strict_toolkit hello_answer) (request_of plain_body).
Proof.
  apply (@POST_single_request LiteralNumbers
           (constant_toolkit 200 hello_answer) (strict_toolkit hello_answer)
           (request_of plain_body)).
  intros body userInput query Hbody Hinput Hquery.
  cbn in Hbody. injection Hbody as <-.
  cbn in Hinput. injection Hinput as <-.
  cbn in Hquery. injection Hquery as <-.
  reflexivity.
Defined.

Lemma POST_unpaired_surrogate_witness :
  POST (constant_toolkit 200 hello_answer) (request_of surrogate_body)
  = Return {| response_status := 500;
              content_type := "application/json";
              body := JsonBody (JObj [(lit "error", JStr (lit "URI malformed"))]) |}.
Proof.
  apply (@POST_unpaired_surrogate LiteralNumbers
           (constant_toolkit 200 hello_answer) (request_of surrogate_body)
           surrogate_body [0xD800%N]);
    reflexivity.
Defined.

Lemma fetchGitHubTools_requests_safe_url_witness :
  fetchGitHubTools (constant_toolkit 200 hello_answer) (JStr (lit "a b&c=d#e"))
  = fetchGitHubTools (strict_toolkit hello_answer) (JStr (lit "a b&c=d#e")).
Proof.
  apply (@fetchGitHubTools_requests_safe_url LiteralNumbers
           (constant_toolkit 200 hello_answer) (strict_toolkit hello_answer)
           (lit "a b&c=d#e")).
  - repeat constructor.
  - intros query Hquery. unfold strict_toolkit, constant_toolkit.
    cbn [lit toolkit_url list_ascii_of_string map app List.length skipn].
    rewrite Hquery. reflexivity.
Defined.

Lemma POST_missing_response_streams_empty_witness :
  POST (constant_toolkit 200 (JObj [])) (request_of plain_body)
  = Return (StreamingTextResponse LiteralNumbers
              {| queue := [[]]; closeRequested := true |}).
Proof.
  apply (@POST_missing_response_streams_empty LiteralNumbers
           (constant_toolkit 200 (JObj [])) (request_of plain_body)
           plain_body (JStr (lit "hi")) (JBool false) (JObj []));
    try reflexivity.
  apply (@constant_toolkit_answers _ _ (lit "hi")). reflexivity.
Defined.

Lemma POST_steps_without_output_witness :
  exists resp,
    POST (constant_toolkit 200 hello_answer) (request_of steps_body) = Return resp /\
    response_status resp = 200%Z /\
    body resp = JsonBody
                  (JObj [(lit "messages",
                          JArr [JObj [(lit "content", JUndefined);
                                      (lit "role", JStr (lit "assistant"))]])]) /\
    body_text resp = JStr (json_text "{'messages':[{'role':'assistant'}]}").
Proof.
  apply (@POST_steps_without_output LiteralNumbers
           (constant_toolkit 200 hello_answer) (request_of steps_body)
           steps_body (JStr (lit "hi")) (JBool true) hello_answer (JStr (lit "hello")));
    try reflexivity.
  apply (@constant_toolkit_answers _ _ (lit "hi")). reflexivity.
Defined.

Lemma POST_steps_nullish_response_witness :
  POST (constant_toolkit 200 (JObj [(lit "response", JNull)])) (request_of steps_body)
  = Return {| response_status := 500;
              content_type := "application/json";
              body := JsonBody
                        (JObj [(lit "error",
                                JStr (lit "Cannot read properties of null (reading 'output')"))]) |}.
Proof.
  apply (@POST_steps_nullish_response LiteralNumbers
           (constant_toolkit 200 (JObj [(lit "response", JNull)])) (request_of steps_body)
           steps_body (JStr (lit "hi")) (JBool true)
           (JObj [(lit "response", JNull)]) JNull);
    try reflexivity.
  - apply (@constant_toolkit_answers _ _ (lit "hi")). reflexivity.
  - left. reflexivity.
Defined.

Lemma POST_toolkit_answers_null_witness :
  POST (constant_toolkit 200 JNull) (request_of plain_body)
  = Return {| response_status := 500;
              content_type := "application/json";
              body := JsonBody
                        (JObj [(lit "error",
                                JStr (lit "Cannot read properties of null (reading 'response')"))]) |}.
Proof.
  apply (@POST_toolkit_answers_null LiteralNumbers
           (constant_toolkit 200 JNull) (request_of plain_body)
           plain_body (JStr (lit "hi")));
    try reflexivity.
  apply (@constant_toolkit_answers _ _ (lit "hi")). reflexivity.
Defined.

Lemma POST_streams_object_as_text_witness :
  POST (constant_toolkit 200 output_answer) (request_of plain_body)
  = Return (StreamingTextResponse LiteralNumbers
              {| queue := [lit "[object Object]"]; closeRequested := true |}).
Proof.
  apply (@POST_streams_object_as_text LiteralNumbers
           (constant_toolkit 200 output_answer) (request_of plain_body)
           plain_body (JStr (lit "hi")) (JBool false) output_answer
           [(lit "output", JStr (lit "hi"))]);
    try reflexivity.
  apply (@constant_toolkit_answers _ _ (lit "hi")). reflexivity.
Defined.

Lemma POST_branch_by_truthiness_witness :
  exists data,
    body {| response_status := 200;
            content_type := "application/json";
            body := JsonBody
                      (JObj [(lit "messages",
                              JArr [JObj [(lit "content", @JStr LiteralNumbers (lit "hi"));
                                          (lit "role", JStr (lit "assistant"))]])]) |}
    = JsonBody data.
Proof.
  apply (proj1 (@POST_branch_by_truthiness LiteralNumbers
                  (constant_toolkit 200 output_answer) (request_of string_flag_body)
                  string_flag_body (JStr (lit "false")) _
                  I (constant_toolkit_native 200 output_answer)
                  eq_refl eq_refl eq_refl eq_refl)).
  reflexivity.
Defined.

Lemma POST_status_200_or_500_witness :
  response_status
    {| response_status := 500;
       content_type := "application/json";
       body := JsonBody
                 (JObj [(lit "error",
                         @JStr LiteralNumbers (lit "Failed to fetch GitHub Toolkit"))]) |}
  = 200%Z \/
  (response_status
     {| response_status := 500;
        content_type := "application/json";
        body := JsonBody
                  (JObj [(lit "error",
                          @JStr LiteralNumbers (lit "Failed to fetch GitHub Toolkit"))]) |}
   = 500%Z /\
   content_type
     {| response_status := 500;
        content_type := "application/json";
        body := JsonBody
                  (JObj [(lit "error",
                          @JStr LiteralNumbers (lit "Failed to fetch GitHub Toolkit"))]) |}
   = "application/json"%string /\
   exists msg,
     body {| response_status := 500;
             content_type := "application/json";
             body := JsonBody
                       (JObj [(lit "error",
                               @JStr LiteralNumbers (lit "Failed to fetch GitHub Toolkit"))]) |}
     = JsonBody (JObj [(lit "error", JStr msg)])).
Proof.
  apply (@POST_status_200_or_500 LiteralNumbers
           (constant_toolkit 404 hello_answer) (request_of plain_body) _
           I (constant_toolkit_native 404 hello_answer) eq_refl).
Defined.

Lemma POST_passes_output_through_witness :
  POST (constant_toolkit 200 list_answer) (request_of steps_body) =
    Return {| response_status := 200;
              content_type := "application/json";
              body := JsonBody
                        (JObj [(lit "messages",
                                JArr [JObj [(lit "content", JArr [number "1"; number "2"]);
                                            (lit "role", JStr (lit "assistant"))]])]) |}.
Proof.
  apply (@POST_passes_output_through LiteralNumbers
           (constant_toolkit 200 list_answer) (request_of steps_body)
           steps_body (JStr (lit "hi")) (JBool true) list_answer
           (JObj [(lit "output", JArr [number "1"; number "2"])])
           (JArr [number "1"; number "2"]));
    try reflexivity.
  apply (@constant_toolkit_answers _ _ (lit "hi")). reflexivity.
Defined.

Lemma convertVercelMessageToLangChainMessage_classes_witness :
  convertVercelMessageToLangChainMessage LiteralNumbers system_prompt
    = ChatMessage (JStr (lit "be brief")) (lit "system") /\
  getType (convertVercelMessageToLangChainMessage LiteralNumbers system_prompt)
    = lit "generic".
Proof.
  apply (proj1 (proj2 (proj2
           (@convertVercelMessageToLangChainMessage_classes LiteralNumbers system_prompt))));
    discriminate.
Defined.

Lemma structured_round_trip_witness :
  exists v,
    as_vercel_message (convertLangChainMessageToVercelMessage system_message) = Some v /\
    convertVercelMessageToLangChainMessage LiteralNumbers v
      = ChatMessage (JStr (lit "be brief")) (lit "system") /\
    getType (convertVercelMessageToLangChainMessage LiteralNumbers v) = lit "generic".
Proof.
  destruct (@structured_round_trip LiteralNumbers system_message (lit "be brief") eq_refl)
    as (v & Hv & _ & _ & Hother).
  exists v. split; [exact Hv | ]. apply Hother; discriminate.
Defined.

Lemma IntermediateStep_non_object_witness :
  IntermediateStep LiteralNumbers number_step
  = (Some (tool_step_view JUndefined JUndefined JUndefined), []).
Proof.
  apply (@IntermediateStep_non_object LiteralNumbers number_step (number "42"));
    [reflexivity | exact I].
Defined.

Lemma IntermediateStep_missing_fields_witness :
  exists view,
    IntermediateStep LiteralNumbers name_only_step = (Some view, []) /\
    nth 1 (embedded view) JNull = JUndefined /\
    nth 2 (embedded view) JNull = JUndefined.
Proof.
  destruct (@IntermediateStep_missing_fields LiteralNumbers name_only_step
              [(lit "tool_name", JStr (lit "search"))] eq_refl)
    as (view & Hview & _ & Hinput & Houtput).
  exists view. split; [exact Hview | ].
  split; [apply Hinput | apply Houtput]; reflexivity.
Defined.

Lemma IntermediateStep_expanded_witness :
  embedded (expand (fun base extra => (base ++ " " ++ extra)%string) search_step_view)
    = embedded search_step_view /\
  List.length
    (embedded (expand (fun base extra => (base ++ " " ++ extra)%string) search_step_view))
    = 3.
Proof.
  apply (@IntermediateStep_expanded LiteralNumbers
           (fun base extra => (base ++ " " ++ extra)%string)
           search_step search_step_view []).
  reflexivity.
Defined.
